(** * gladys-gateway: the user controller and the front-end compatibility test

    A shallow embedding of
      - [gladys-gateway-server/core/api/user/user.controller.js]
      - [gladys-gateway-front/src/api/Auth.js] ([testBrowserCompatibility])

    The controller is a closure over three collaborators ([userModel],
    [mailService], [socketModel]) whose code is not part of the two files;
    they are parameters of the development.  A handler is an [async]
    function: it runs in a small state-and-exception monad whose state holds
    the collaborators' world, the Express response object and a chronological
    log of the calls, awaits and response writes the handler performs. *)

From Stdlib Require Import String Ascii List ZArith Bool Lia DecimalString.
Import ListNotations.
Local Open Scope string_scope.
Set Warnings "-register-all".

(* ===================================================================== *)
(** ** JavaScript values *)
(* ===================================================================== *)

Module JS.

(** The JSON-like fragment of JavaScript values the two files handle.
    An object is a plain object, given by its own properties in insertion
    order.  Numbers are the integer-valued ones (the only numeric literal of
    the sources is [201]).  A string is held as its bytes in UTF-8, a
    surrogate that has no partner as the three bytes the same scheme gives
    it ([ED A0..BF 80..BF]). *)
Inductive value : Type :=
| VUndefined
| VNull
| VBool (b : bool)
| VNum (z : Z)
| VStr (s : string)
| VObj (fields : list (string * value)).

(** The value thrown by a property read on [undefined] or [null], and by
    the conversion of an object that has no usable [toString]. *)
Definition TypeError : value := VObj [("name", VStr "TypeError")].

(** The value [encodeURI] throws on a surrogate without its partner. *)
Definition URIError : value := VObj [("name", VStr "URIError")].

(** Result of evaluating an expression or running a function body. *)
Inductive completion (A : Type) : Type :=
| Normal (a : A)
| Throw (e : value).
Arguments Normal {A} a.
Arguments Throw {A} e.

(** ToBoolean: what [!v] and [if (v)] test. *)
Definition truthy (v : value) : bool :=
  match v with
  | VUndefined | VNull => false
  | VBool b => b
  | VNum z => negb (Z.eqb z 0)
  | VStr s => negb (String.eqb s EmptyString)
  | VObj _ => true
  end.

(** [v === false]. *)
Definition strict_eq_false (v : value) : bool :=
  match v with
  | VBool false => true
  | _ => false
  end.

Fixpoint lookup (k : string) (fs : list (string * value)) : value :=
  match fs with
  | [] => VUndefined
  | (k', v) :: rest => if String.eqb k k' then v else lookup k rest
  end.

(** [v.k] / [v['k']].  Reading a property of [undefined] or [null] throws;
    a primitive is boxed and the read goes to its prototype, which has
    none of the property names the two files read. *)
Definition get_prop (v : value) (k : string) : completion value :=
  match v with
  | VUndefined | VNull => Throw TypeError
  | VObj fs => Normal (lookup k fs)
  | VBool _ | VNum _ | VStr _ => Normal VUndefined
  end.

Fixpoint has_own (k : string) (fs : list (string * value)) : bool :=
  match fs with
  | [] => false
  | (k', _) :: rest => String.eqb k k' || has_own k rest
  end.

(** *** ToString *)

Section Conversions.

(** [Number::toString], the digits the engine prints for a number. *)
Variable Number_toString : Z -> string.

(** ToString, as applied by a template literal's [${...}] and by
    [encodeURI] to its argument.  An object is converted through its
    [toString] and then its [valueOf]: a plain object without a property
    [toString] of its own prints through [Object.prototype.toString]; with
    one, which in this fragment is never a function, the conversion falls
    to [Object.prototype.valueOf], gets the object back and throws. *)
Definition ToString (v : value) : completion string :=
  match v with
  | VUndefined => Normal "undefined"
  | VNull => Normal "null"
  | VBool true => Normal "true"
  | VBool false => Normal "false"
  | VNum z => Normal (Number_toString z)
  | VStr s => Normal s
  | VObj fs => if has_own "toString" fs then Throw TypeError else Normal "[object Object]"
  end.

End Conversions.

(** *** encodeURI *)

Definition in_range (lo hi : string) (c : ascii) : bool :=
  match lo, hi with
  | String l EmptyString, String h EmptyString =>
      (nat_of_ascii l <=? nat_of_ascii c)%nat && (nat_of_ascii c <=? nat_of_ascii h)%nat
  | _, _ => false
  end.

Fixpoint mem_char (c : ascii) (s : string) : bool :=
  match s with
  | EmptyString => false
  | String d rest => Ascii.eqb c d || mem_char c rest
  end.

(** The characters [encodeURI] leaves alone: the reserved set, the
    unreserved marks, letters, digits and [#]. *)
Definition uri_unescaped (c : ascii) : bool :=
  in_range "a" "z" c || in_range "A" "Z" c || in_range "0" "9" c
  || mem_char c ";/?:@&=+$,-_.!~*'()#".

Definition hex_digit (n : nat) : ascii :=
  match n with
  | 0 => "0" | 1 => "1" | 2 => "2" | 3 => "3" | 4 => "4" | 5 => "5" | 6 => "6"
  | 7 => "7" | 8 => "8" | 9 => "9" | 10 => "A" | 11 => "B" | 12 => "C"
  | 13 => "D" | 14 => "E" | _ => "F"
  end%char%nat.

Definition percent_encode (c : ascii) : string :=
  let n := nat_of_ascii c in
  String "%" (String (hex_digit (n / 16)) (String (hex_digit (n mod 16)) EmptyString)).

(** Every other character is replaced by the [%XX] escapes of its UTF-8
    bytes; on a string held as UTF-8 bytes that is byte by byte. *)
Fixpoint encode_uri_string (s : string) : string :=
  match s with
  | EmptyString => EmptyString
  | String c rest =>
      if uri_unescaped c then String c (encode_uri_string rest)
      else percent_encode c ++ encode_uri_string rest
  end.

Definition byte_in (lo hi : nat) (c : ascii) : bool :=
  (lo <=? nat_of_ascii c)%nat && (nat_of_ascii c <=? hi)%nat.

(** A continuation byte, [80..BF]. *)
Definition continuation (c : ascii) : bool := byte_in 128 191 c.

(** Well-formed UTF-8: the bytes of a string in which every surrogate has
    its partner. *)
Fixpoint utf8_valid (s : string) : bool :=
  match s with
  | EmptyString => true
  | String c0 r0 =>
      if byte_in 0 127 c0 then utf8_valid r0
      else
        match r0 with
        | EmptyString => false
        | String c1 r1 =>
            if byte_in 194 223 c0 then continuation c1 && utf8_valid r1
            else
              match r1 with
              | EmptyString => false
              | String c2 r2 =>
                  if byte_in 224 224 c0 then
                    byte_in 160 191 c1 && continuation c2 && utf8_valid r2
                  else if byte_in 225 236 c0 || byte_in 238 239 c0 then
                    continuation c1 && continuation c2 && utf8_valid r2
                  else if byte_in 237 237 c0 then
                    byte_in 128 159 c1 && continuation c2 && utf8_valid r2
                  else
                    match r2 with
                    | EmptyString => false
                    | String c3 r3 =>
                        if byte_in 240 240 c0 then
                          byte_in 144 191 c1 && continuation c2 && continuation c3
                          && utf8_valid r3
                        else if byte_in 241 243 c0 then
                          continuation c1 && continuation c2 && continuation c3
                          && utf8_valid r3
                        else if byte_in 244 244 c0 then
                          byte_in 128 143 c1 && continuation c2 && continuation c3
                          && utf8_valid r3
                        else false
                    end
              end
        end
  end.

(** [encodeURI(v)]: the argument is converted to a string, which may throw;
    a string with a lone surrogate is refused. *)
Definition encodeURI (Number_toString : Z -> string) (v : value) : completion string :=
  match ToString Number_toString v with
  | Throw e => Throw e
  | Normal s => if utf8_valid s then Normal (encode_uri_string s) else Throw URIError
  end.

Fixpoint all_chars (p : ascii -> bool) (s : string) : bool :=
  match s with
  | EmptyString => true
  | String c rest => p c && all_chars p rest
  end.

End JS.
Import JS.

Definition bind_completion {A B : Type} (c : completion A) (k : A -> completion B)
  : completion B :=
  match c with
  | Normal a => k a
  | Throw e => Throw e
  end.

(* ===================================================================== *)
(** ** gladys-gateway-front/src/api/Auth.js *)
(* ===================================================================== *)

Module Auth.

Local Notation "x <- c ;; k" := (bind_completion c (fun x => k))
  (at level 61, c at next level, right associativity).

(** [!a || !b], the right operand evaluated only when the left is false. *)
Definition or_else (l : bool) (r : completion bool) : completion bool :=
  if l then Normal true else r.

(** [testBrowserCompatibility], over the global [window] object. *)
Definition testBrowserCompatibility (window : value) : completion bool :=
  let browserCompatible := true in
  crypto <- get_prop window "crypto" ;;
  cond <- or_else (negb (truthy crypto))
            (crypto' <- get_prop window "crypto" ;;
             subtle <- get_prop crypto' "subtle" ;;
             Normal (negb (truthy subtle))) ;;
  let browserCompatible := if (cond : bool) then false else browserCompatible in
  indexedDB <- get_prop window "indexedDB" ;;
  let browserCompatible :=
    if negb (truthy indexedDB) then false else browserCompatible in
  Normal browserCompatible.

End Auth.

(* ===================================================================== *)
(** ** gladys-gateway-server/core/api/user/user.controller.js *)
(* ===================================================================== *)

Module UserController.

(** The state a promise ends in.  [Pending] is a promise that never
    settles: an [await] on it never returns. *)
Inductive settled (A : Type) : Type :=
| Fulfilled (a : A)
| Rejected (e : value)
| Pending.
Arguments Fulfilled {A} a.
Arguments Rejected {A} e.
Arguments Pending {A}.

Definition promise : Type := settled value.

(** The three objects the controller closes over. *)
Inductive collaborator : Type := userModel | mailService | socketModel.

(** What a handler does, in the order it does it. *)
Inductive event : Type :=
| Call (c : collaborator) (method : string) (args : list value)
| Await (p : promise)
| ResStatus (code : Z)
| ResJson (body : value).

(** The part of Express' [req] the handlers read. *)
Record request : Type := {
  req_body : value;
  req_user : value;
  req_headers : value
}.

(** Express' [res]: the status code (200 until [res.status] changes it) and
    the body once [res.json] has sent it. *)
Record response : Type := {
  statusCode : Z;
  sent : option value
}.

Definition fresh_res : response := {| statusCode := 200; sent := None |}.

Section Controller.

(** The collaborators' state: the database, the mail queue, the sockets. *)
Variable W : Type.

(** A collaborator method.  The collaborators are asynchronous: a call does
    not throw, it returns a promise, given here with the state that promise
    ends in, and leaves a world. *)
Definition method : Type := W -> promise * W.

Record UserModel : Type := {
  userModel_signup : value -> method;
  userModel_updateUser : value -> value -> method;
  userModel_loginGetSalt : value -> method;
  userModel_loginTwoFactor : value -> value -> value -> value -> method;
  userModel_forgotPassword : value -> method;
  userModel_resetPassword : value -> value -> method
}.

Record MailService : Type := {
  mailService_send : value -> value -> value -> method
}.

Record SocketModel : Type := {
  socketModel_askInstanceToClearKeyCache : value -> method
}.

Record state : Type := {
  world : W;
  res : response;
  log : list event
}.

Definition init (w : W) : state := {| world := w; res := fresh_res; log := [] |}.

(** The body of an async function: it ends by returning (the function's
    promise is fulfilled), by throwing (it is rejected) or it stays
    suspended at an [await]. *)
Definition async (A : Type) : Type := state -> settled A * state.

Definition ret {A : Type} (a : A) : async A := fun s => (Fulfilled a, s).

Definition bind {A B : Type} (m : async A) (k : A -> async B) : async B :=
  fun s =>
    match m s with
    | (Fulfilled a, s') => k a s'
    | (Rejected e, s') => (Rejected e, s')
    | (Pending, s') => (Pending, s')
    end.

Definition record (ev : event) (s : state) : state :=
  {| world := world s; res := res s; log := log s ++ [ev] |}.

(** An expression that may throw. *)
Definition eval {A : Type} (c : completion A) : async A :=
  fun s =>
    match c with
    | Normal a => (Fulfilled a, s)
    | Throw e => (Rejected e, s)
    end.

(** [c.m(args)]: the call runs on the world and hands back its promise. *)
Definition call (c : collaborator) (m : string) (args : list value) (f : method)
  : async promise :=
  fun s =>
    let (p, w') := f (world s) in
    (Fulfilled p, {| world := w'; res := res s; log := log s ++ [Call c m args] |}).

(** [await p]. *)
Definition await (p : promise) : async value :=
  fun s => (p, record (Await p) s).

(** [res.status(code)]. *)
Definition res_status (code : Z) : async unit :=
  fun s =>
    (Fulfilled tt,
     {| world := world s;
        res := {| statusCode := code; sent := sent (res s) |};
        log := log s ++ [ResStatus code] |}).

(** [res.json(body)]. *)
Definition res_json (body : value) : async unit :=
  fun s =>
    (Fulfilled tt,
     {| world := world s;
        res := {| statusCode := statusCode (res s); sent := Some body |};
        log := log s ++ [ResJson body] |}).

End Controller.

Arguments ret {W A} a.
Arguments bind {W A B} m k.
Arguments eval {W A} c.
Arguments call {W} c m args f.
Arguments await {W} p.
Arguments res_status {W} code.
Arguments res_json {W} body.
Arguments init {W} w.
Arguments world {W} s.
Arguments res {W} s.
Arguments log {W} s.

Notation "x <- c ;; k" := (bind c (fun x => k))
  (at level 61, c at next level, right associativity).
Notation "c ;;; k" := (bind c (fun _ => k))
  (at level 61, right associativity).

Section Handlers.

Variable W : Type.

(** [UserController(userModel, mailService, socketModel)]. *)
Variable um : UserModel W.
Variable ms : MailService W.
Variable sm : SocketModel W.

(** [process.env]: a variable that is not set reads as [undefined]. *)
Variable env : string -> option string.

(** The engine's printing of numbers. *)
Variable Number_toString : Z -> string.

Definition process_env (name : string) : value :=
  match env name with
  | Some s => VStr s
  | None => VUndefined
  end.

Definition signup (req : request) : async W unit :=
  p <- call userModel "signup" [req_body req]
         (userModel_signup W um (req_body req)) ;;
  user <- await p ;;
  gateway <- eval (ToString Number_toString (process_env "GLADYS_GATEWAY_FRONTEND_URL")) ;;
  token1 <- eval (get_prop user "email_confirmation_token") ;;
  encoded1 <- eval (encodeURI Number_toString token1) ;;
  plus <- eval (ToString Number_toString (process_env "GLADYS_PLUS_FRONTEND_URL")) ;;
  token2 <- eval (get_prop user "email_confirmation_token") ;;
  encoded2 <- eval (encodeURI Number_toString token2) ;;
  let variables :=
    VObj [("confirmationUrl", VStr (gateway ++ "/confirm-email/" ++ encoded1));
          ("confirmationUrlGladys4", VStr (plus ++ "/confirm-email/" ++ encoded2))] in
  call mailService "send" [user; VStr "confirmation"; variables]
    (mailService_send W ms user (VStr "confirmation") variables) ;;;
  res_status 201 ;;;
  res_json (VObj [("status", VNum 201);
                  ("message",
                   VStr "User created with success. You need now to confirm your email.")]).

Definition updateUser (req : request) : async W unit :=
  p <- call userModel "updateUser" [req_user req; req_body req]
         (userModel_updateUser W um (req_user req) (req_body req)) ;;
  user <- await p ;;
  email_confirmed <- eval (get_prop user "email_confirmed") ;;
  (if strict_eq_false email_confirmed then
     gateway <- eval (ToString Number_toString
                        (process_env "GLADYS_GATEWAY_FRONTEND_URL")) ;;
     token1 <- eval (get_prop user "email_confirmation_token") ;;
     text1 <- eval (ToString Number_toString token1) ;;
     plus <- eval (ToString Number_toString (process_env "GLADYS_PLUS_FRONTEND_URL")) ;;
     token2 <- eval (get_prop user "email_confirmation_token") ;;
     text2 <- eval (ToString Number_toString token2) ;;
     let variables :=
       VObj [("confirmationUrl", VStr (gateway ++ "/confirm-email/" ++ text1));
             ("confirmationUrlGladys4", VStr (plus ++ "/confirm-email/" ++ text2))] in
     call mailService "send" [user; VStr "confirmation"; variables]
       (mailService_send W ms user (VStr "confirmation") variables) ;;;
     ret tt
   else ret tt) ;;;
  res_json user.

Definition loginGetSalt (req : request) : async W unit :=
  p <- call userModel "loginGetSalt" [req_body req]
         (userModel_loginGetSalt W um (req_body req)) ;;
  user <- await p ;;
  res_json user.

Definition loginTwoFactor (req : request) : async W unit :=
  two_factor_code <- eval (get_prop (req_body req) "two_factor_code") ;;
  device_name <- eval (get_prop (req_body req) "device_name") ;;
  user_agent <- eval (get_prop (req_headers req) "user-agent") ;;
  p <- call userModel "loginTwoFactor"
         [req_user req; two_factor_code; device_name; user_agent]
         (userModel_loginTwoFactor W um (req_user req) two_factor_code device_name
            user_agent) ;;
  tokens <- await p ;;
  res_json tokens.

Definition forgotPassword (req : request) : async W unit :=
  email <- eval (get_prop (req_body req) "email") ;;
  p <- call userModel "forgotPassword" [email] (userModel_forgotPassword W um email) ;;
  await p ;;;
  res_json (VObj [("success", VBool true)]).

Definition resetPassword (req : request) : async W unit :=
  token <- eval (get_prop (req_body req) "token") ;;
  p <- call userModel "resetPassword" [token; req_body req]
         (userModel_resetPassword W um token (req_body req)) ;;
  newUser <- await p ;;
  account_id <- eval (get_prop newUser "account_id") ;;
  q <- call socketModel "askInstanceToClearKeyCache" [account_id]
         (socketModel_askInstanceToClearKeyCache W sm account_id) ;;
  await q ;;;
  res_json (VObj [("success", VBool true)]).

End Handlers.

End UserController.
Import UserController.

(* ===================================================================== *)
(** ** Collaborators and requests used to run the handlers *)
(* ===================================================================== *)

Module UserModelSpec.

(** The world of the user model: the user table, one row per user, an email
    and that user's SRP salt. *)
Definition UserTable : Type := list (string * string).

Definition lower (c : ascii) : ascii :=
  if in_range "A" "Z" c then ascii_of_nat (nat_of_ascii c + 32) else c.

Fixpoint lowercase (s : string) : string :=
  match s with
  | EmptyString => EmptyString
  | String c rest => String (lower c) (lowercase rest)
  end.

(** Emails are "unique, case-insensitive": rows are matched with the
    letters A to Z folded. *)
Fixpoint find_salt (email : string) (users : UserTable) : option string :=
  match users with
  | [] => None
  | (e, salt) :: rest =>
      if String.eqb (lowercase email) (lowercase e) then Some salt
      else find_salt email rest
  end.

(** What the model answers to input that is not what it expects. *)
Definition ValidationError : value := VObj [("name", VStr "ValidationError")].

(** Modelled from the spec: [userModel.loginGetSalt], whose code is in the
    user model and not in the controller's file.  It "looks up the user's
    srp_salt"; "if the email is unknown, the contract MUST still return a
    syntactically valid but non-identifying salt-shaped response".  How the
    salt of an unknown email is made is left open: it is [decoy].  A body
    without an email string is malformed input. *)
Definition spec_loginGetSalt (decoy : string -> string) (body : value)
  : method UserTable :=
  fun users =>
    match get_prop body "email" with
    | Throw e => (Rejected e, users)
    | Normal (VStr email) =>
        match find_salt email users with
        | Some salt => (Fulfilled (VObj [("srp_salt", VStr salt)]), users)
        | None => (Fulfilled (VObj [("srp_salt", VStr (decoy email))]), users)
        end
    | Normal _ => (Rejected ValidationError, users)
    end.


End UserModelSpec.
Import UserModelSpec.

Module Fixtures.

Definition tony : value :=
  VObj [("id", VStr "30d56556-0aaa-4933-97cd-d226e6ffb11d");
        ("name", VStr "Tony Stark");
        ("email", VStr "tony.stark@gladysassistant.com");
        ("email_confirmed", VBool false);
        ("email_confirmation_token", VStr "c0de 42");
        ("account_id", VStr "b2d23f66-487d-493f-8acb-9c8adb400def")].

Definition tony_confirmed : value :=
  VObj [("id", VStr "30d56556-0aaa-4933-97cd-d226e6ffb11d");
        ("name", VStr "Tony Stark");
        ("email", VStr "tony.stark@gladysassistant.com");
        ("email_confirmed", VBool true)].

Definition tokens : value :=
  VObj [("access_token", VStr "xxxx");
        ("refresh_token", VStr "yyyy");
        ("device_id", VStr "b82ef923-d849-4b98-9dee-0a6e0005903d")].

(** The salt answered for an email that matches no user. *)
Definition decoy (email : string) : string :=
  "00000000000000000000000000000000000000000000000000000000000000a1".

(** The decimal digits of a number: what the engine prints for the
    integers it holds exactly. *)
Definition decimal (z : Z) : string := NilZero.string_of_int (Z.to_int z).

Definition users : UserTable :=
  [("tony.stark@gladysassistant.com",
    "e0812f8c57be08780bafcc7e2cbacd155b6f63962114c12cc12462a7aa669fdb")].

(** A user model in which every call succeeds. *)
Definition um : UserModel UserTable := {|
  userModel_signup := fun _ w => (Fulfilled tony, w);
  userModel_updateUser := fun _ _ w => (Fulfilled tony, w);
  userModel_loginGetSalt := spec_loginGetSalt decoy;
  userModel_loginTwoFactor := fun _ _ _ _ w => (Fulfilled tokens, w);
  userModel_forgotPassword := fun _ w => (Fulfilled VUndefined, w);
  userModel_resetPassword := fun _ _ w => (Fulfilled tony, w)
|}.

(** The same, the update returning a user whose email is confirmed. *)
Definition um_confirmed : UserModel UserTable := {|
  userModel_signup := userModel_signup _ um;
  userModel_updateUser := fun _ _ w => (Fulfilled tony_confirmed, w);
  userModel_loginGetSalt := userModel_loginGetSalt _ um;
  userModel_loginTwoFactor := userModel_loginTwoFactor _ um;
  userModel_forgotPassword := userModel_forgotPassword _ um;
  userModel_resetPassword := userModel_resetPassword _ um
|}.

Definition smtp_down : value := VObj [("name", VStr "Error"); ("message", VStr "smtp down")].
Definition socket_down : value := VObj [("name", VStr "Error"); ("message", VStr "socket down")].

(** A mail service whose send fails. *)
Definition ms_failing : MailService UserTable :=
  {| mailService_send := fun _ _ _ w => (Rejected smtp_down, w) |}.

Definition sm_ok : SocketModel UserTable :=
  {| socketModel_askInstanceToClearKeyCache := fun _ w => (Fulfilled VUndefined, w) |}.

(** A socket model whose broadcast fails. *)
Definition sm_failing : SocketModel UserTable :=
  {| socketModel_askInstanceToClearKeyCache := fun _ w => (Rejected socket_down, w) |}.

Definition env (name : string) : option string :=
  if String.eqb name "GLADYS_GATEWAY_FRONTEND_URL" then Some "https://gateway.example"
  else if String.eqb name "GLADYS_PLUS_FRONTEND_URL" then Some "https://plus.example"
  else None.

Definition no_headers : value := VObj [].

Definition req_signup : request := {|
  req_body := VObj [("name", VStr "Tony Stark");
                    ("email", VStr "tony.stark@gladysassistant.com");
                    ("language", VStr "en")];
  req_user := VUndefined;
  req_headers := no_headers
|}.

Definition req_update : request := {|
  req_body := VObj [("email", VStr "tony.stark@gladysassistant.com")];
  req_user := tony;
  req_headers := no_headers
|}.

Definition req_salt_known : request := {|
  req_body := VObj [("email", VStr "tony.stark@gladysassistant.com")];
  req_user := VUndefined;
  req_headers := no_headers
|}.

Definition req_salt_other_case : request := {|
  req_body := VObj [("email", VStr "Tony.Stark@GladysAssistant.com")];
  req_user := VUndefined;
  req_headers := no_headers
|}.

Definition req_salt_unknown : request := {|
  req_body := VObj [("email", VStr "nobody@gladysassistant.com")];
  req_user := VUndefined;
  req_headers := no_headers
|}.

Definition req_two_factor : request := {|
  req_body := VObj [("two_factor_code", VStr "123456"); ("device_name", VStr "laptop")];
  req_user := tony;
  req_headers := VObj [("user-agent", VStr "Mozilla/5.0")]
|}.

Definition req_forgot_known : request := req_salt_known.
Definition req_forgot_unknown : request := req_salt_unknown.

Definition req_reset : request := {|
  req_body := VObj [("token", VStr "reset-token");
                    ("srp_salt", VStr "aa");
                    ("srp_verifier", VStr "bb");
                    ("rsa_encrypted_private_key", VStr "cc");
                    ("ecdsa_encrypted_private_key", VStr "dd")];
  req_user := VUndefined;
  req_headers := no_headers
|}.

(** A browser that has everything, and one that serves the page over
    plain HTTP, where [crypto.subtle] is undefined. *)
Definition window_ok : value :=
  VObj [("crypto", VObj [("subtle", VObj [])]); ("indexedDB", VObj [])].

Definition window_insecure : value :=
  VObj [("crypto", VObj []); ("indexedDB", VObj [])].

End Fixtures.

(* ===================================================================== *)
(** ** Response bodies and log predicates *)
(* ===================================================================== *)

Definition success_body : value := VObj [("success", VBool true)].

Definition created_body : value :=
  VObj [("status", VNum 201);
        ("message", VStr "User created with success. You need now to confirm your email.")].

(** A body of the shape [{access_token, refresh_token, device_id}]. *)
Definition tokens_shaped (v : value) : Prop :=
  exists a r d, v = VObj [("access_token", a); ("refresh_token", r); ("device_id", d)].

(** What a template literal prints for [process.env.name]. *)
Definition env_text (env : string -> option string) (name : string) : string :=
  match env name with
  | Some s => s
  | None => "undefined"
  end.

(** The variables of the confirmation mail, [tail] being what stands for
    the token at the end of both links. *)
Definition confirmation_variables (env : string -> option string) (tail : string)
  : value :=
  VObj [("confirmationUrl",
         VStr (env_text env "GLADYS_GATEWAY_FRONTEND_URL" ++ "/confirm-email/" ++ tail));
        ("confirmationUrlGladys4",
         VStr (env_text env "GLADYS_PLUS_FRONTEND_URL" ++ "/confirm-email/" ++ tail))].

Definition is_call_to (c : collaborator) (ev : event) : bool :=
  match ev, c with
  | Call userModel _ _, userModel => true
  | Call mailService _ _, mailService => true
  | Call socketModel _ _, socketModel => true
  | _, _ => false
  end.

Definition calls_to (c : collaborator) (l : list event) : nat :=
  length (filter (is_call_to c) l).

Definition is_call (ev : event) : bool :=
  match ev with
  | Call _ _ _ => true
  | _ => false
  end.

Definition is_await (ev : event) : bool :=
  match ev with
  | Await _ => true
  | _ => false
  end.

(** What a browser puts in [window.crypto], [crypto.subtle] and
    [window.indexedDB]: an object, or nothing. *)
Definition object_or_undefined (v : value) : Prop :=
  v = VUndefined \/ exists fields, v = VObj fields.

Definition is_object (v : value) : Prop := exists fields, v = VObj fields.

(** [v.k] where it can be read, [undefined] where the read would throw. *)
Definition read_or_undefined (v : value) (k : string) : value :=
  match get_prop v k with
  | Normal x => x
  | Throw _ => VUndefined
  end.

(* ===================================================================== *)
(** ** user.controller.js: the remaining handlers and the exported object *)
(* ===================================================================== *)

Module UserControllerRest.

(** The methods of [userModel] the handlers below call; with [UserModel]
    they make up the one object the controller receives. *)
Record UserModelRest (W : Type) : Type := {
  userModel_confirmEmail : value -> method W;
  userModel_loginGenerateEphemeralValuePair : value -> method W;
  userModel_loginDeriveSession : value -> method W;
  userModel_configureTwoFactor : value -> method W;
  userModel_enableTwoFactor : value -> value -> method W;
  userModel_getNewTwoFactorSecret : value -> method W;
  userModel_updateTwoFactor : value -> value -> value -> method W;
  userModel_getAccessToken : value -> value -> method W;
  userModel_getMySelf : value -> method W;
  userModel_getSetupState : value -> method W;
  userModel_getEmailResetPassword : value -> method W
}.

(** A request with the route parameters Express puts in [req.params]. *)
Record routed : Type := {
  request_of : request;
  req_params : value
}.

Section Handlers.

Variable W : Type.
Variable um : UserModel W.
Variable umr : UserModelRest W.
Variable ms : MailService W.
Variable sm : SocketModel W.
Variable env : string -> option string.
Variable Number_toString : Z -> string.

Definition confirmEmail (req : request) : async W unit :=
  email_confirmation_token <- eval (get_prop (req_body req) "email_confirmation_token") ;;
  p <- call userModel "confirmEmail" [email_confirmation_token]
         (userModel_confirmEmail W umr email_confirmation_token) ;;
  user <- await p ;;
  res_json user.

Definition loginGenerateEphemeralValuePair (req : request) : async W unit :=
  p <- call userModel "loginGenerateEphemeralValuePair" [req_body req]
         (userModel_loginGenerateEphemeralValuePair W umr (req_body req)) ;;
  pair <- await p ;;
  res_json pair.

Definition loginDeriveSession (req : request) : async W unit :=
  p <- call userModel "loginDeriveSession" [req_body req]
         (userModel_loginDeriveSession W umr (req_body req)) ;;
  session <- await p ;;
  res_json session.

Definition configureTwoFactor (req : request) : async W unit :=
  p <- call userModel "configureTwoFactor" [req_user req]
         (userModel_configureTwoFactor W umr (req_user req)) ;;
  secret <- await p ;;
  res_json secret.

Definition enableTwoFactor (req : request) : async W unit :=
  two_factor_code <- eval (get_prop (req_body req) "two_factor_code") ;;
  p <- call userModel "enableTwoFactor" [req_user req; two_factor_code]
         (userModel_enableTwoFactor W umr (req_user req) two_factor_code) ;;
  enabled <- await p ;;
  res_json enabled.

Definition getNewTwoFactorSecret (req : request) : async W unit :=
  p <- call userModel "getNewTwoFactorSecret" [req_user req]
         (userModel_getNewTwoFactorSecret W umr (req_user req)) ;;
  secret <- await p ;;
  res_json secret.

Definition updateTwoFactor (req : request) : async W unit :=
  two_factor_secret <- eval (get_prop (req_body req) "two_factor_secret") ;;
  two_factor_code <- eval (get_prop (req_body req) "two_factor_code") ;;
  p <- call userModel "updateTwoFactor" [req_user req; two_factor_secret; two_factor_code]
         (userModel_updateTwoFactor W umr (req_user req) two_factor_secret
            two_factor_code) ;;
  updated <- await p ;;
  res_json updated.

Definition getAccessToken (req : request) : async W unit :=
  authorization <- eval (get_prop (req_headers req) "authorization") ;;
  p <- call userModel "getAccessToken" [req_user req; authorization]
         (userModel_getAccessToken W umr (req_user req) authorization) ;;
  token <- await p ;;
  res_json token.

Definition getMySelf (req : request) : async W unit :=
  p <- call userModel "getMySelf" [req_user req]
         (userModel_getMySelf W umr (req_user req)) ;;
  currentUser <- await p ;;
  res_json currentUser.

Definition getSetupState (req : request) : async W unit :=
  p <- call userModel "getSetupState" [req_user req]
         (userModel_getSetupState W umr (req_user req)) ;;
  state <- await p ;;
  res_json state.

Definition getEmailResetPassword (req : routed) : async W unit :=
  token <- eval (get_prop (req_params req) "token") ;;
  p <- call userModel "getEmailResetPassword" [token]
         (userModel_getEmailResetPassword W umr token) ;;
  user <- await p ;;
  res_json user.

(** The object [UserController(userModel, mailService, socketModel)]
    returns: its seventeen handlers by name, in the order of the source. *)
Definition UserController : list (string * (routed -> async W unit)) :=
  [("signup", fun req => signup W um ms env Number_toString (request_of req));
   ("updateUser", fun req => updateUser W um ms env Number_toString (request_of req));
   ("confirmEmail", fun req => confirmEmail (request_of req));
   ("configureTwoFactor", fun req => configureTwoFactor (request_of req));
   ("enableTwoFactor", fun req => enableTwoFactor (request_of req));
   ("loginGetSalt", fun req => loginGetSalt W um (request_of req));
   ("loginGenerateEphemeralValuePair",
    fun req => loginGenerateEphemeralValuePair (request_of req));
   ("loginDeriveSession", fun req => loginDeriveSession (request_of req));
   ("loginTwoFactor", fun req => loginTwoFactor W um (request_of req));
   ("getAccessToken", fun req => getAccessToken (request_of req));
   ("forgotPassword", fun req => forgotPassword W um (request_of req));
   ("resetPassword", fun req => resetPassword W um sm (request_of req));
   ("getMySelf", fun req => getMySelf (request_of req));
   ("getSetupState", fun req => getSetupState (request_of req));
   ("getEmailResetPassword", getEmailResetPassword);
   ("getNewTwoFactorSecret", fun req => getNewTwoFactorSecret (request_of req));
   ("updateTwoFactor", fun req => updateTwoFactor (request_of req))].

End Handlers.

End UserControllerRest.
Import UserControllerRest.

(* ===================================================================== *)
(** ** Auth.js: the functions over [keyValStore] and the gateway client *)
(* ===================================================================== *)

Module AuthStore.

(** What the functions do to the browser, in order. *)
Inductive auth_event (Callback : Type) : Type :=
| StoreSet (key : string) (v : value)
| StoreGet (key : string)
| AuthAwait (p : promise)
| UserConnect (refreshToken rsaKeys ecdsaKeys : value) (callback : Callback).
Arguments StoreSet {Callback} key v.
Arguments StoreGet {Callback} key.
Arguments AuthAwait {Callback} p.
Arguments UserConnect {Callback} refreshToken rsaKeys ecdsaKeys callback.

Section Browser.

(** The browser's state (the key-value database, the socket) and the type
    of the callback handed to [connectSocket]. *)
Variable B : Type.
Variable Callback : Type.

(** [./keyValStore]: [get(key)] and [set(key, value)], both asynchronous. *)
Record KeyValStore : Type := {
  keyValStore_get : string -> method B;
  keyValStore_set : string -> value -> method B
}.

(** The part of the gateway client [connectSocket] uses. *)
Record Client : Type := {
  client_userConnect : value -> value -> value -> Callback -> method B
}.

Record bstate : Type := {
  browser : B;
  blog : list (auth_event Callback)
}.

Definition binit (b : B) : bstate := {| browser := b; blog := [] |}.

Definition task (A : Type) : Type := bstate -> settled A * bstate.

Definition tret {A : Type} (a : A) : task A := fun s => (Fulfilled a, s).

Definition tbind {A C : Type} (m : task A) (k : A -> task C) : task C :=
  fun s =>
    match m s with
    | (Fulfilled a, s') => k a s'
    | (Rejected e, s') => (Rejected e, s')
    | (Pending, s') => (Pending, s')
    end.

Definition teval {A : Type} (c : completion A) : task A :=
  fun s =>
    match c with
    | Normal a => (Fulfilled a, s)
    | Throw e => (Rejected e, s)
    end.

(** A call of a collaborator: it runs on the browser and hands back its
    promise. *)
Definition tcall (ev : auth_event Callback) (f : method B) : task promise :=
  fun s =>
    let (p, b') := f (browser s) in
    (Fulfilled p, {| browser := b'; blog := (blog s ++ [ev])%list |}).

Definition tawait (p : promise) : task value :=
  fun s => (p, {| browser := browser s; blog := (blog s ++ [AuthAwait p])%list |}).

(** [return p] in an async function: its promise follows [p]. *)
Definition treturn (p : promise) : task value := fun s => (p, s).

Variable keyValStore : KeyValStore.
Variable client : Client.

Declare Scope task_scope.
Local Notation "x <- c ;; k" := (tbind c (fun x => k))
  (at level 61, c at next level, right associativity) : task_scope.
Local Notation "c ;;; k" := (tbind c (fun _ => k))
  (at level 61, right associativity) : task_scope.
Local Open Scope task_scope.

Definition connectSocket (callback : Callback) : task value :=
  p1 <- tcall (StoreGet "refresh_token") (keyValStore_get keyValStore "refresh_token") ;;
  refreshToken <- tawait p1 ;;
  p2 <- tcall (StoreGet "rsa_keys") (keyValStore_get keyValStore "rsa_keys") ;;
  rsaKeys <- tawait p2 ;;
  p3 <- tcall (StoreGet "ecdsa_keys") (keyValStore_get keyValStore "ecdsa_keys") ;;
  ecdsaKeys <- tawait p3 ;;
  p <- tcall (UserConnect refreshToken rsaKeys ecdsaKeys callback)
         (client_userConnect client refreshToken rsaKeys ecdsaKeys callback) ;;
  treturn p.

(** An arrow function with an expression body returns the promise itself. *)
Definition saveTwoFactorAccessToken (token : value) : task promise :=
  tcall (StoreSet "two_factor_access_token" token)
    (keyValStore_set keyValStore "two_factor_access_token" token).

Definition getTwoFactorAccessToken (token : value) : task promise :=
  tcall (StoreGet "two_factor_access_token")
    (keyValStore_get keyValStore "two_factor_access_token").

(** A block body without [return]: the result is [undefined].  The
    function is not async: [Rejected e] is the exception [e] it throws. *)
Definition saveLoginInformations (data : value) : task value :=
  refreshToken <- teval (get_prop data "refreshToken") ;;
  tcall (StoreSet "refresh_token" refreshToken)
    (keyValStore_set keyValStore "refresh_token" refreshToken) ;;;
  accessToken <- teval (get_prop data "accessToken") ;;
  tcall (StoreSet "access_token" accessToken)
    (keyValStore_set keyValStore "access_token" accessToken) ;;;
  rsaKeys <- teval (get_prop data "rsaKeys") ;;
  tcall (StoreSet "rsa_keys" rsaKeys) (keyValStore_set keyValStore "rsa_keys" rsaKeys) ;;;
  ecdsaKeys <- teval (get_prop data "ecdsaKeys") ;;
  tcall (StoreSet "ecdsa_keys" ecdsaKeys)
    (keyValStore_set keyValStore "ecdsa_keys" ecdsaKeys) ;;;
  tret VUndefined.

(** One function after another, the second on the browser the first left. *)
Definition and_then {A C : Type} (first : task A) (second : task C) : task C :=
  fun s =>
    let (_, s') := first s in
    second {| browser := browser s'; blog := [] |}.

End Browser.

Arguments browser {B Callback}.
Arguments blog {B Callback}.
Arguments binit {B Callback}.

(** A store whose writes are in place when [set] returns and whose reads
    change nothing. *)
Record lawful {B : Type} (store : KeyValStore B) : Prop := {
  get_keeps : forall k b, snd (keyValStore_get B store k b) = b;
  get_set_same : forall k v b,
      fst (keyValStore_get B store k (snd (keyValStore_set B store k v b))) = Fulfilled v;
  get_set_other : forall k k' v b,
      k <> k' ->
      fst (keyValStore_get B store k' (snd (keyValStore_set B store k v b)))
      = fst (keyValStore_get B store k' b)
}.

End AuthStore.
Import AuthStore.

(* ===================================================================== *)
(** ** More collaborators and requests *)
(* ===================================================================== *)

Module Fixtures2.

(** The remaining methods of the user model, every call succeeding with
    its arguments in an object. *)
Definition umr : UserModelRest UserTable := {|
  userModel_confirmEmail := fun t w => (Fulfilled (VObj [("token", t)]), w);
  userModel_loginGenerateEphemeralValuePair := fun b w => (Fulfilled b, w);
  userModel_loginDeriveSession := fun b w => (Fulfilled b, w);
  userModel_configureTwoFactor := fun u w => (Fulfilled u, w);
  userModel_enableTwoFactor := fun u c w => (Fulfilled (VObj [("user", u); ("code", c)]), w);
  userModel_getNewTwoFactorSecret := fun u w => (Fulfilled u, w);
  userModel_updateTwoFactor :=
    fun u s c w => (Fulfilled (VObj [("user", u); ("secret", s); ("code", c)]), w);
  userModel_getAccessToken :=
    fun u a w => (Fulfilled (VObj [("user", u); ("authorization", a)]), w);
  userModel_getMySelf := fun u w => (Fulfilled u, w);
  userModel_getSetupState := fun u w => (Fulfilled u, w);
  userModel_getEmailResetPassword := fun t w => (Fulfilled (VObj [("token", t)]), w)
|}.

(** A user model that creates, updates and rotates, answers [null], and
    leaves a row in the table to show for it. *)
Definition um_null : UserModel UserTable := {|
  userModel_signup := fun _ w => (Fulfilled VNull, ("created", "salt") :: w);
  userModel_updateUser := fun _ _ w => (Fulfilled VNull, ("updated", "salt") :: w);
  userModel_loginGetSalt := userModel_loginGetSalt _ Fixtures.um;
  userModel_loginTwoFactor := userModel_loginTwoFactor _ Fixtures.um;
  userModel_forgotPassword := userModel_forgotPassword _ Fixtures.um;
  userModel_resetPassword := fun _ _ w => (Fulfilled VNull, ("rotated", "salt") :: w)
|}.



Definition no_env (name : string) : option string := None.

(** A request that reached the handler without a parsed body. *)
Definition req_no_body : request := {|
  req_body := VUndefined;
  req_user := Fixtures.tony;
  req_headers := Fixtures.no_headers
|}.

Definition req_update_two_factor : request := {|
  req_body := VObj [("two_factor_code", VStr "123456");
                    ("two_factor_secret", VStr "F5NCGUKX")];
  req_user := Fixtures.tony;
  req_headers := Fixtures.no_headers
|}.

Definition req_access_token : request := {|
  req_body := VUndefined;
  req_user := Fixtures.tony;
  req_headers := VObj [("authorization", VStr "refresh-1")]
|}.

(** A key-value store held as a list, the latest write first; a key never
    written reads as [undefined]. *)
Definition Store : Type := list (string * value).

Definition store : KeyValStore Store := {|
  keyValStore_get := fun k b => (Fulfilled (lookup k b), b);
  keyValStore_set := fun k v b => (Fulfilled VUndefined, (k, v) :: b)
|}.

(** The same store with writes that are done but reported as failed. *)
Definition store_failing_set : KeyValStore Store := {|
  keyValStore_get := fun k b => (Fulfilled (lookup k b), b);
  keyValStore_set := fun k v b => (Rejected Fixtures.socket_down, (k, v) :: b)
|}.

(** A store that cannot be read. *)
Definition store_unreadable : KeyValStore Store := {|
  keyValStore_get := fun k b => (Rejected Fixtures.socket_down, b);
  keyValStore_set := fun k v b => (Fulfilled VUndefined, (k, v) :: b)
|}.

(** A client whose connection resolves with what it was given. *)
Definition gateway : Client Store nat := {|
  client_userConnect :=
    fun refreshToken rsaKeys ecdsaKeys _ b =>
      (Fulfilled (VObj [("refresh_token", refreshToken);
                        ("rsa_keys", rsaKeys);
                        ("ecdsa_keys", ecdsaKeys)]), b)
|}.

Definition login_data : value :=
  VObj [("refreshToken", VStr "refresh-1");
        ("accessToken", VStr "access-1");
        ("rsaKeys", VObj [("public_key", VStr "rsa-pub")]);
        ("ecdsaKeys", VObj [("public_key", VStr "ecdsa-pub")])].

End Fixtures2.

(** The parts of a request a handler may read. *)
Inductive part : Type := Body | User | Headers | Params.

Definition part_of (p : part) (req : routed) : value :=
  match p with
  | Body => req_body (request_of req)
  | User => req_user (request_of req)
  | Headers => req_headers (request_of req)
  | Params => req_params req
  end.

(** Which parts each handler's source mentions. *)
Definition reads (name : string) : list part :=
  if String.eqb name "signup" then [Body]
  else if String.eqb name "updateUser" then [User; Body]
  else if String.eqb name "confirmEmail" then [Body]
  else if String.eqb name "configureTwoFactor" then [User]
  else if String.eqb name "enableTwoFactor" then [User; Body]
  else if String.eqb name "loginGetSalt" then [Body]
  else if String.eqb name "loginGenerateEphemeralValuePair" then [Body]
  else if String.eqb name "loginDeriveSession" then [Body]
  else if String.eqb name "loginTwoFactor" then [User; Body; Headers]
  else if String.eqb name "getAccessToken" then [User; Headers]
  else if String.eqb name "forgotPassword" then [Body]
  else if String.eqb name "resetPassword" then [Body]
  else if String.eqb name "getMySelf" then [User]
  else if String.eqb name "getSetupState" then [User]
  else if String.eqb name "getEmailResetPassword" then [Params]
  else if String.eqb name "getNewTwoFactorSecret" then [User]
  else if String.eqb name "updateTwoFactor" then [User; Body]
  else [].

Definition is_json (ev : event) : bool :=
  match ev with
  | ResJson _ => true
  | _ => false
  end.



(** The characters of a URI: what [encodeURI] keeps, and the percent sign
    of its escapes. *)
Definition uri_char (c : ascii) : bool := uri_unescaped c || Ascii.eqb c "%".

Definition is_set {Callback : Type} (ev : auth_event Callback) : bool :=
  match ev with
  | StoreSet _ _ => true
  | _ => false
  end.

Definition is_connect {Callback : Type} (ev : auth_event Callback) : bool :=
  match ev with
  | UserConnect _ _ _ _ => true
  | _ => false
  end.

(* ===================================================================== *)
(** ** Concrete runs *)
(* ===================================================================== *)

Example ToString_201 : ToString Fixtures.decimal (VNum 201) = Normal "201".
Proof. reflexivity. Qed.

Example ToString_plain_object :
  ToString Fixtures.decimal (VObj [("valueOf", VNum 1)]) = Normal "[object Object]".
Proof. reflexivity. Qed.

Example ToString_own_toString :
  ToString Fixtures.decimal (VObj [("toString", VStr "x")]) = Throw TypeError.
Proof. reflexivity. Qed.

Example encodeURI_space :
  encodeURI Fixtures.decimal (VStr "a b/c?d=é") = Normal "a%20b/c?d=%C3%A9".
Proof. reflexivity. Qed.

Example encodeURI_astral :
  encodeURI Fixtures.decimal
    (VStr (String (ascii_of_nat 240) (String (ascii_of_nat 159)
             (String (ascii_of_nat 152) (String (ascii_of_nat 128) EmptyString)))))
  = Normal "%F0%9F%98%80".
Proof. reflexivity. Qed.

Example encodeURI_lone_surrogate :
  encodeURI Fixtures.decimal
    (VStr (String (ascii_of_nat 237) (String (ascii_of_nat 160)
             (String (ascii_of_nat 128) EmptyString))))
  = Throw URIError.
Proof. reflexivity. Qed.

Example encodeURI_own_toString :
  encodeURI Fixtures.decimal (VObj [("toString", VStr "x")]) = Throw TypeError.
Proof. reflexivity. Qed.

Example encodeURI_undefined : encodeURI Fixtures.decimal VUndefined = Normal "undefined".
Proof. reflexivity. Qed.

Example compat_ok : Auth.testBrowserCompatibility Fixtures.window_ok = Normal true.
Proof. reflexivity. Qed.

Example compat_no_subtle :
  Auth.testBrowserCompatibility Fixtures.window_insecure = Normal false.
Proof. reflexivity. Qed.

Example compat_no_crypto :
  Auth.testBrowserCompatibility (VObj [("indexedDB", VObj [])]) = Normal false.
Proof. reflexivity. Qed.

Example compat_no_indexedDB :
  Auth.testBrowserCompatibility (VObj [("crypto", VObj [("subtle", VObj [])])])
  = Normal false.
Proof. reflexivity. Qed.

Example run_signup :
  signup _ Fixtures.um Fixtures.ms_failing Fixtures.env Fixtures.decimal
    Fixtures.req_signup (init Fixtures.users)
  = (Fulfilled tt,
     {| world := Fixtures.users;
        res := {| statusCode := 201; sent := Some created_body |};
        log := [Call userModel "signup" [req_body Fixtures.req_signup];
                Await (Fulfilled Fixtures.tony);
                Call mailService "send"
                  [Fixtures.tony; VStr "confirmation";
                   VObj [("confirmationUrl",
                          VStr "https://gateway.example/confirm-email/c0de%2042");
                         ("confirmationUrlGladys4",
                          VStr "https://plus.example/confirm-email/c0de%2042")]];
                ResStatus 201;
                ResJson created_body] |}).
Proof. reflexivity. Qed.

Example run_resetPassword_failing :
  resetPassword _ Fixtures.um Fixtures.sm_failing Fixtures.req_reset (init Fixtures.users)
  = (Rejected Fixtures.socket_down,
     {| world := Fixtures.users;
        res := fresh_res;
        log := [Call userModel "resetPassword"
                  [VStr "reset-token"; req_body Fixtures.req_reset];
                Await (Fulfilled Fixtures.tony);
                Call socketModel "askInstanceToClearKeyCache"
                  [VStr "b2d23f66-487d-493f-8acb-9c8adb400def"];
                Await (Rejected Fixtures.socket_down)] |}).
Proof. reflexivity. Qed.

(* ===================================================================== *)
(** ** Facts about the JavaScript fragment *)
(* ===================================================================== *)

Lemma get_prop_obj (fields : list (string * value)) (k : string) :
  get_prop (VObj fields) k = Normal (lookup k fields).
Proof. reflexivity. Qed.

(** A property read that succeeds on a receiver succeeds for every name. *)
Lemma get_prop_total (v : value) (k k' : string) (x : value) :
  get_prop v k = Normal x -> exists y, get_prop v k' = Normal y.
Proof.
  destruct v; simpl; intros H; try discriminate; eauto.
Qed.

Lemma truthy_object_or_undefined (v : value) :
  object_or_undefined v -> (truthy v = true <-> is_object v).
Proof.
  intros [-> | [fs ->]]; simpl; split; intros H.
  - discriminate.
  - destruct H as [fs H]; discriminate.
  - exists fs; reflexivity.
  - reflexivity.
Qed.

(** What a template literal prints for an entry of [process.env]. *)
Lemma ToString_process_env (N : Z -> string) (env : string -> option string)
    (name : string) :
  ToString N (process_env env name) = Normal (env_text env name).
Proof.
  unfold process_env, env_text. destruct (env name); reflexivity.
Qed.

(** The characters [encodeURI] keeps are ASCII. *)
Lemma uri_unescaped_ascii (c : ascii) : uri_unescaped c = true -> byte_in 0 127 c = true.
Proof.
  destruct c as [[|] [|] [|] [|] [|] [|] [|] [|]];
    intros H; try discriminate H; reflexivity.
Qed.

Lemma utf8_valid_unescaped (s : string) :
  all_chars uri_unescaped s = true -> utf8_valid s = true.
Proof.
  induction s as [|c s IH]; cbn [all_chars utf8_valid]; intros H; [reflexivity|].
  apply andb_true_iff in H as [Hc Hs].
  rewrite (uri_unescaped_ascii c Hc). exact (IH Hs).
Qed.

(** [encodeURI] changes nothing in a string of unescaped characters. *)
Lemma encode_uri_string_unescaped (s : string) :
  all_chars uri_unescaped s = true -> encode_uri_string s = s.
Proof.
  induction s as [|c s IH]; simpl; intros H.
  - reflexivity.
  - apply andb_true_iff in H as [Hc Hs].
    rewrite Hc, (IH Hs). reflexivity.
Qed.

(* ===================================================================== *)
(** ** Auth.js: testBrowserCompatibility *)
(* ===================================================================== *)

(** C10. [testBrowserCompatibility] always returns, and it returns [true]
    if and only if [window.crypto] is there (truthy, which is what [!]
    tests), [window.crypto.subtle] is there and [window.indexedDB] is
    there; it returns [false] as soon as [crypto.subtle] or [indexedDB] is
    absent.  For the values a browser provides (an object or [undefined])
    being there is being an object. *)
Theorem testBrowserCompatibility_iff (fields : list (string * value)) :
  let window := VObj fields in
  let crypto := lookup "crypto" fields in
  let subtle := read_or_undefined crypto "subtle" in
  let indexedDB := lookup "indexedDB" fields in
  exists b : bool,
    Auth.testBrowserCompatibility window = Normal b
    /\ (b = true <->
        truthy crypto = true /\ truthy subtle = true /\ truthy indexedDB = true)
    /\ (truthy subtle = false \/ truthy indexedDB = false -> b = false)
    /\ (object_or_undefined crypto -> object_or_undefined subtle ->
        object_or_undefined indexedDB ->
        (b = true <-> is_object crypto /\ is_object subtle /\ is_object indexedDB)).
Proof.
  intros window crypto subtle indexedDB.
  unfold Auth.testBrowserCompatibility, window; rewrite !get_prop_obj.
  fold crypto indexedDB. cbn [bind_completion].
  destruct (truthy crypto) eqn:Hc.
  - (* [window.crypto] is truthy: [crypto.subtle] is read *)
    assert (Hs : get_prop crypto "subtle" = Normal subtle).
    { unfold subtle, read_or_undefined.
      destruct crypto; simpl in Hc |- *; try discriminate; reflexivity. }
    rewrite Hs. exists (truthy subtle && truthy indexedDB).
    cbn [negb Auth.or_else bind_completion].
    repeat split; intros; try discriminate.
    + destruct (truthy subtle), (truthy indexedDB); reflexivity.
    + destruct (truthy subtle); [reflexivity | discriminate].
    + destruct (truthy subtle), (truthy indexedDB); try discriminate; reflexivity.
    + destruct H as (_ & -> & ->); reflexivity.
    + destruct H as [-> | ->]; [reflexivity | apply andb_false_r].
    + apply truthy_object_or_undefined; [assumption | exact Hc].
    + apply truthy_object_or_undefined; [assumption |].
      destruct (truthy subtle); [reflexivity | discriminate].
    + apply truthy_object_or_undefined; [assumption |].
      destruct (truthy subtle), (truthy indexedDB); try discriminate; reflexivity.
    + destruct H2 as (_ & H2 & H3).
      apply truthy_object_or_undefined in H2, H3; try assumption.
      rewrite H2, H3; reflexivity.
  - (* [window.crypto] is falsy: [crypto.subtle] is not read *)
    exists false.
    cbn [negb Auth.or_else bind_completion].
    repeat split; intros; try discriminate; try reflexivity.
    + destruct (truthy indexedDB); reflexivity.
    + destruct H as (H & _); discriminate.
    + destruct H2 as (H2 & _).
      apply truthy_object_or_undefined in H2; [congruence | assumption].
Qed.

(* ===================================================================== *)
(** ** The controller: how each handler runs *)
(* ===================================================================== *)

Ltac step_handler :=
  unfold bind, call, await, eval, res_status, res_json, ret, record, init; cbn.


(** The four ways [resetPassword] can go after it has read the token. *)
Lemma resetPassword_run (W : Type) (um : UserModel W) (sm : SocketModel W)
    (req : request) (w : W) :
  resetPassword W um sm req (init w) =
  match get_prop (req_body req) "token" with
  | Throw e => (Rejected e, init w)
  | Normal token =>
      let (p, w1) := userModel_resetPassword W um token (req_body req) w in
      let rotation := [Call userModel "resetPassword" [token; req_body req]; Await p] in
      match p with
      | Rejected e => (Rejected e, {| world := w1; res := fresh_res; log := rotation |})
      | Pending => (Pending, {| world := w1; res := fresh_res; log := rotation |})
      | Fulfilled newUser =>
          match get_prop newUser "account_id" with
          | Throw e => (Rejected e, {| world := w1; res := fresh_res; log := rotation |})
          | Normal account_id =>
              let (q, w2) := socketModel_askInstanceToClearKeyCache W sm account_id w1 in
              let broadcast :=
                (rotation
                 ++ [Call socketModel "askInstanceToClearKeyCache" [account_id];
                     Await q])%list in
              match q with
              | Rejected e =>
                  (Rejected e, {| world := w2; res := fresh_res; log := broadcast |})
              | Pending => (Pending, {| world := w2; res := fresh_res; log := broadcast |})
              | Fulfilled _ =>
                  (Fulfilled tt,
                   {| world := w2;
                      res := {| statusCode := 200; sent := Some success_body |};
                      log := (broadcast ++ [ResJson success_body])%list |})
              end
          end
      end
  end.
Proof.
  unfold resetPassword. step_handler.
  destruct (get_prop (req_body req) "token") as [token|e]; cbn; [|reflexivity].
  destruct (userModel_resetPassword W um token (req_body req) w) as [[newUser|e|] w1];
    cbn; try reflexivity.
  destruct (get_prop newUser "account_id") as [account_id|e]; cbn; [|reflexivity].
  destruct (socketModel_askInstanceToClearKeyCache W sm account_id w1) as [[v|e|] w2];
    reflexivity.
Qed.

Lemma forgotPassword_run (W : Type) (um : UserModel W) (req : request) (w : W) :
  forgotPassword W um req (init w) =
  match get_prop (req_body req) "email" with
  | Throw e => (Rejected e, init w)
  | Normal email =>
      let (p, w1) := userModel_forgotPassword W um email w in
      let asked := [Call userModel "forgotPassword" [email]; Await p] in
      match p with
      | Rejected e => (Rejected e, {| world := w1; res := fresh_res; log := asked |})
      | Pending => (Pending, {| world := w1; res := fresh_res; log := asked |})
      | Fulfilled _ =>
          (Fulfilled tt,
           {| world := w1;
              res := {| statusCode := 200; sent := Some success_body |};
              log := (asked ++ [ResJson success_body])%list |})
      end
  end.
Proof.
  unfold forgotPassword. step_handler.
  destruct (get_prop (req_body req) "email") as [email|e]; cbn; [|reflexivity].
  destruct (userModel_forgotPassword W um email w) as [[v|e|] w1]; reflexivity.
Qed.

(* ===================================================================== *)
(** ** resetPassword *)
(* ===================================================================== *)

(** C1, as the spec states it, fails: with a rotation that succeeds and a
    broadcast that fails, the handler is rejected with the broadcast's error
    and sends nothing. *)
Lemma resetPassword_broadcast_failure_is_surfaced :
  ~ (forall (sm : SocketModel UserTable) (req : request)
            (w : UserTable) (token newUser : value) (w1 : UserTable),
        get_prop (req_body req) "token" = Normal token ->
        userModel_resetPassword _ Fixtures.um token (req_body req) w
        = (Fulfilled newUser, w1) ->
        let (r, s) := resetPassword _ Fixtures.um sm req (init w) in
        r = Fulfilled tt /\ sent (res s) = Some success_body).
Proof.
  intros claim.
  specialize (claim Fixtures.sm_failing Fixtures.req_reset Fixtures.users
                (VStr "reset-token") Fixtures.tony Fixtures.users eq_refl eq_refl).
  cbn in claim. destruct claim as [claim _]. discriminate claim.
Qed.

(** C1, amended.  When the rotation has succeeded and the account id of the
    rotated user can be read, the handler does what the broadcast's promise
    does: [{success: true}] is sent when it is fulfilled; when it is
    rejected the handler is rejected with the same error and sends nothing;
    while it is pending nothing is sent.  In every case the world is the one
    the broadcast left after the rotation: the controller undoes nothing. *)
Theorem resetPassword_follows_broadcast (W : Type) (um : UserModel W)
    (sm : SocketModel W) (req : request) (w w1 w2 : W)
    (token newUser account_id : value) (q : promise) :
  get_prop (req_body req) "token" = Normal token ->
  userModel_resetPassword W um token (req_body req) w = (Fulfilled newUser, w1) ->
  get_prop newUser "account_id" = Normal account_id ->
  socketModel_askInstanceToClearKeyCache W sm account_id w1 = (q, w2) ->
  let (r, s) := resetPassword W um sm req (init w) in
  world s = w2
  /\ match q with
     | Fulfilled _ =>
         r = Fulfilled tt
         /\ res s = {| statusCode := 200; sent := Some success_body |}
     | Rejected e => r = Rejected e /\ sent (res s) = None
     | Pending => r = Pending /\ sent (res s) = None
     end.
Proof.
  intros Htoken Hrot Hacc Hcast.
  rewrite resetPassword_run, Htoken, Hrot, Hacc, Hcast.
  destruct q; cbn; auto.
Qed.

Lemma resetPassword_follows_broadcast_witness :
  let (r, s) :=
    resetPassword _ Fixtures.um Fixtures.sm_failing Fixtures.req_reset
      (init Fixtures.users) in
  world s = Fixtures.users
  /\ r = Rejected Fixtures.socket_down /\ sent (res s) = None.
Proof.
  apply (resetPassword_follows_broadcast _ Fixtures.um Fixtures.sm_failing
           Fixtures.req_reset Fixtures.users Fixtures.users Fixtures.users
           (VStr "reset-token") Fixtures.tony
           (VStr "b2d23f66-487d-493f-8acb-9c8adb400def")
           (Rejected Fixtures.socket_down));
    reflexivity.
Defined.



(** C9. When [resetPassword] succeeds, the response is status 200 with the
    body [{success: true}], and that is the only body the handler writes:
    nothing of the user the rotation returned is in it. *)
Theorem resetPassword_success_body (W : Type) (um : UserModel W) (sm : SocketModel W)
    (req : request) (w : W) (s : state W) :
  resetPassword W um sm req (init w) = (Fulfilled tt, s) ->
  res s = {| statusCode := 200; sent := Some (VObj [("success", VBool true)]) |}
  /\ forall body, In (ResJson body) (log s) -> body = VObj [("success", VBool true)].
Proof.
  rewrite resetPassword_run. intros Hrun.
  destruct (get_prop (req_body req) "token") as [token|e]; [|discriminate Hrun].
  destruct (userModel_resetPassword W um token (req_body req) w) as [[newUser|e|] w1];
    try discriminate Hrun.
  destruct (get_prop newUser "account_id") as [account_id|e]; [|discriminate Hrun].
  destruct (socketModel_askInstanceToClearKeyCache W sm account_id w1) as [[v|e|] w2];
    try discriminate Hrun.
  injection Hrun as <-. split; [reflexivity|].
  cbn. intros body Hin.
  repeat (destruct Hin as [Hin|Hin]; [try discriminate Hin|]); try contradiction.
  injection Hin as <-. reflexivity.
Qed.

Lemma resetPassword_success_body_witness :
  let s := snd (resetPassword _ Fixtures.um Fixtures.sm_ok Fixtures.req_reset
                  (init Fixtures.users)) in
  res s = {| statusCode := 200; sent := Some (VObj [("success", VBool true)]) |}
  /\ forall body, In (ResJson body) (log s) -> body = VObj [("success", VBool true)].
Proof.
  apply (resetPassword_success_body _ Fixtures.um Fixtures.sm_ok Fixtures.req_reset
           Fixtures.users).
  reflexivity.
Defined.

(* ===================================================================== *)
(** ** forgotPassword *)
(* ===================================================================== *)

(** C3. Whenever [userModel.forgotPassword] resolves on the email of the
    request, the handler succeeds and the response is status 200 with the
    body [{success: true}]; two requests on which the model resolves, with
    any model, world, email and resolved value, get the same response. *)
Theorem forgotPassword_uniform_response (W : Type) (um um' : UserModel W)
    (req req' : request) (w w1 w' w1' : W) (email email' v v' : value) :
  get_prop (req_body req) "email" = Normal email ->
  userModel_forgotPassword W um email w = (Fulfilled v, w1) ->
  get_prop (req_body req') "email" = Normal email' ->
  userModel_forgotPassword W um' email' w' = (Fulfilled v', w1') ->
  let (r, s) := forgotPassword W um req (init w) in
  let (r', s') := forgotPassword W um' req' (init w') in
  r = Fulfilled tt
  /\ res s = {| statusCode := 200; sent := Some (VObj [("success", VBool true)]) |}
  /\ r' = r
  /\ res s' = res s.
Proof.
  intros Hemail Hmodel Hemail' Hmodel'.
  rewrite !forgotPassword_run, Hemail, Hmodel, Hemail', Hmodel'.
  cbn. repeat split; reflexivity.
Qed.

Lemma forgotPassword_uniform_response_witness :
  let (r, s) := forgotPassword _ Fixtures.um Fixtures.req_forgot_known
                  (init Fixtures.users) in
  let (r', s') := forgotPassword _ Fixtures.um Fixtures.req_forgot_unknown (init []) in
  r = Fulfilled tt
  /\ res s = {| statusCode := 200; sent := Some (VObj [("success", VBool true)]) |}
  /\ r' = r
  /\ res s' = res s.
Proof.
  apply (forgotPassword_uniform_response _ Fixtures.um Fixtures.um
           Fixtures.req_forgot_known Fixtures.req_forgot_unknown
           Fixtures.users Fixtures.users [] []
           (VStr "tony.stark@gladysassistant.com") (VStr "nobody@gladysassistant.com")
           VUndefined VUndefined);
    reflexivity.
Defined.

(* ===================================================================== *)
(** ** signup *)
(* ===================================================================== *)

Lemma signup_run (W : Type) (um : UserModel W) (ms : MailService W)
    (env : string -> option string) (N : Z -> string) (req : request) (w : W) :
  signup W um ms env N req (init w) =
  let (p, w1) := userModel_signup W um (req_body req) w in
  let created := [Call userModel "signup" [req_body req]; Await p] in
  match p with
  | Rejected e => (Rejected e, {| world := w1; res := fresh_res; log := created |})
  | Pending => (Pending, {| world := w1; res := fresh_res; log := created |})
  | Fulfilled user =>
      match get_prop user "email_confirmation_token" with
      | Throw e => (Rejected e, {| world := w1; res := fresh_res; log := created |})
      | Normal token =>
          match encodeURI N token with
          | Throw e => (Rejected e, {| world := w1; res := fresh_res; log := created |})
          | Normal tail =>
              let variables := confirmation_variables env tail in
              let (_, w2) :=
                mailService_send W ms user (VStr "confirmation") variables w1 in
              (Fulfilled tt,
               {| world := w2;
                  res := {| statusCode := 201; sent := Some created_body |};
                  log := (created
                          ++ [Call mailService "send"
                                [user; VStr "confirmation"; variables];
                              ResStatus 201;
                              ResJson created_body])%list |})
          end
      end
  end.
Proof.
  unfold signup, bind, call, await, eval, res_status, res_json, init.
  rewrite !ToString_process_env. cbn.
  destruct (userModel_signup W um (req_body req) w) as [[user|e|] w1]; cbn;
    try reflexivity.
  destruct (get_prop user "email_confirmation_token") as [token|e]; cbn; [|reflexivity].
  destruct (encodeURI N token) as [tail|e]; cbn; [|reflexivity].
  change (mailService_send W ms user (VStr "confirmation") _ w1)
    with (mailService_send W ms user (VStr "confirmation")
            (confirmation_variables env tail) w1).
  destruct (mailService_send W ms user (VStr "confirmation")
              (confirmation_variables env tail) w1) as [mail w2].
  reflexivity.
Qed.

(** C4. When [signup] succeeds, the response is status 201 with the body
    [{status: 201, message: ...}], a constant in which nothing of the created
    user appears.  The user is the one [userModel.signup] resolved with; its
    confirmation token, URI-encoded, goes into the two links handed to
    [mailService.send], which is applied once, on the world the model left,
    and into nothing else the handler does. *)
Theorem signup_response (W : Type) (um : UserModel W) (ms : MailService W)
    (env : string -> option string) (N : Z -> string) (req : request) (w : W)
    (s : state W) :
  signup W um ms env N req (init w) = (Fulfilled tt, s) ->
  res s =
    {| statusCode := 201;
       sent := Some (VObj [("status", VNum 201);
                           ("message",
                            VStr "User created with success. You need now to confirm your email.")]) |}
  /\ exists (user token : value) (tail : string) (mail : promise) (w1 w2 : W),
       userModel_signup W um (req_body req) w = (Fulfilled user, w1)
       /\ get_prop user "email_confirmation_token" = Normal token
       /\ encodeURI N token = Normal tail
       /\ mailService_send W ms user (VStr "confirmation")
            (confirmation_variables env tail) w1 = (mail, w2)
       /\ world s = w2
       /\ log s =
          [Call userModel "signup" [req_body req];
           Await (Fulfilled user);
           Call mailService "send"
             [user; VStr "confirmation"; confirmation_variables env tail];
           ResStatus 201;
           ResJson created_body].
Proof.
  rewrite signup_run. intros Hrun.
  destruct (userModel_signup W um (req_body req) w) as [[user|e|] w1] eqn:Hmodel;
    try discriminate Hrun.
  destruct (get_prop user "email_confirmation_token") as [token|e] eqn:Htoken;
    [|discriminate Hrun].
  destruct (encodeURI N token) as [tail|e] eqn:Htail; [|discriminate Hrun].
  cbv zeta in Hrun.
  destruct (mailService_send W ms user (VStr "confirmation")
              (confirmation_variables env tail) w1) as [mail w2] eqn:Hmail.
  injection Hrun as <-. split; [reflexivity|].
  exists user, token, tail, mail, w1, w2. repeat split; assumption.
Qed.

Lemma signup_response_witness :
  let s := snd (signup _ Fixtures.um Fixtures.ms_failing Fixtures.env Fixtures.decimal
                  Fixtures.req_signup (init Fixtures.users)) in
  res s =
    {| statusCode := 201;
       sent := Some (VObj [("status", VNum 201);
                           ("message",
                            VStr "User created with success. You need now to confirm your email.")]) |}
  /\ exists (user token : value) (tail : string) (mail : promise) (w1 w2 : UserTable),
       userModel_signup _ Fixtures.um (req_body Fixtures.req_signup) Fixtures.users
       = (Fulfilled user, w1)
       /\ get_prop user "email_confirmation_token" = Normal token
       /\ encodeURI Fixtures.decimal token = Normal tail
       /\ mailService_send _ Fixtures.ms_failing user (VStr "confirmation")
            (confirmation_variables Fixtures.env tail) w1 = (mail, w2)
       /\ world s = w2
       /\ log s =
          [Call userModel "signup" [req_body Fixtures.req_signup];
           Await (Fulfilled user);
           Call mailService "send"
             [user; VStr "confirmation"; confirmation_variables Fixtures.env tail];
           ResStatus 201;
           ResJson created_body].
Proof.
  apply (signup_response _ Fixtures.um Fixtures.ms_failing Fixtures.env Fixtures.decimal
           Fixtures.req_signup Fixtures.users).
  reflexivity.
Defined.

(** C5. When the model has created the user and the user's confirmation
    token can be URI-encoded, [signup] applies [mailService.send] exactly
    once, to the user, ['confirmation'] and two links that end in the
    encoded token (the token as it is when it is made of characters
    [encodeURI] keeps).  The call is not awaited: the only await of the run
    is the one on the model, and whatever the promise of [send] does
    (fulfilled, rejected, pending) the handler succeeds with the 201
    response, on the world [send] left. *)
Theorem signup_mail_fire_and_forget (W : Type) (um : UserModel W) (ms : MailService W)
    (env : string -> option string) (N : Z -> string) (req : request) (w w1 w2 : W)
    (user token : value) (tail : string) (mail : promise) :
  userModel_signup W um (req_body req) w = (Fulfilled user, w1) ->
  get_prop user "email_confirmation_token" = Normal token ->
  encodeURI N token = Normal tail ->
  mailService_send W ms user (VStr "confirmation") (confirmation_variables env tail) w1
  = (mail, w2) ->
  let (r, s) := signup W um ms env N req (init w) in
  r = Fulfilled tt
  /\ world s = w2
  /\ res s = {| statusCode := 201; sent := Some created_body |}
  /\ filter (is_call_to mailService) (log s)
     = [Call mailService "send"
          [user; VStr "confirmation"; confirmation_variables env tail]]
  /\ calls_to mailService (log s) = 1
  /\ filter is_await (log s) = [Await (Fulfilled user)]
  /\ (forall text,
         ToString N token = Normal text ->
         all_chars uri_unescaped text = true ->
         tail = text).
Proof.
  intros Hmodel Htoken Htail Hmail.
  rewrite signup_run, Hmodel, Htoken, Htail. cbv zeta. rewrite Hmail.
  repeat split; try reflexivity.
  intros text Htext Hsafe. unfold encodeURI in Htail.
  rewrite Htext, (utf8_valid_unescaped _ Hsafe), (encode_uri_string_unescaped _ Hsafe)
    in Htail.
  injection Htail as <-. reflexivity.
Qed.

Lemma signup_mail_fire_and_forget_witness :
  let (r, s) := signup _ Fixtures.um Fixtures.ms_failing Fixtures.env Fixtures.decimal
                  Fixtures.req_signup (init Fixtures.users) in
  r = Fulfilled tt
  /\ world s = Fixtures.users
  /\ res s = {| statusCode := 201; sent := Some created_body |}
  /\ filter (is_call_to mailService) (log s)
     = [Call mailService "send"
          [Fixtures.tony; VStr "confirmation";
           confirmation_variables Fixtures.env "c0de%2042"]]
  /\ calls_to mailService (log s) = 1
  /\ filter is_await (log s) = [Await (Fulfilled Fixtures.tony)]
  /\ (forall text,
         ToString Fixtures.decimal (VStr "c0de 42") = Normal text ->
         all_chars uri_unescaped text = true ->
         "c0de%2042" = text).
Proof.
  apply (signup_mail_fire_and_forget _ Fixtures.um Fixtures.ms_failing Fixtures.env
           Fixtures.decimal Fixtures.req_signup Fixtures.users Fixtures.users
           Fixtures.users Fixtures.tony (VStr "c0de 42") "c0de%2042"
           (Rejected Fixtures.smtp_down));
    reflexivity.
Defined.

(* ===================================================================== *)
(** ** updateUser *)
(* ===================================================================== *)

Lemma updateUser_run (W : Type) (um : UserModel W) (ms : MailService W)
    (env : string -> option string) (N : Z -> string) (req : request) (w : W) :
  updateUser W um ms env N req (init w) =
  let (p, w1) := userModel_updateUser W um (req_user req) (req_body req) w in
  let updated := [Call userModel "updateUser" [req_user req; req_body req]; Await p] in
  match p with
  | Rejected e => (Rejected e, {| world := w1; res := fresh_res; log := updated |})
  | Pending => (Pending, {| world := w1; res := fresh_res; log := updated |})
  | Fulfilled user =>
      match get_prop user "email_confirmed" with
      | Throw e => (Rejected e, {| world := w1; res := fresh_res; log := updated |})
      | Normal email_confirmed =>
          if strict_eq_false email_confirmed then
            match get_prop user "email_confirmation_token" with
            | Throw e => (Rejected e, {| world := w1; res := fresh_res; log := updated |})
            | Normal token =>
                match ToString N token with
                | Throw e =>
                    (Rejected e, {| world := w1; res := fresh_res; log := updated |})
                | Normal text =>
                    let variables := confirmation_variables env text in
                    let (_, w2) :=
                      mailService_send W ms user (VStr "confirmation") variables w1 in
                    (Fulfilled tt,
                     {| world := w2;
                        res := {| statusCode := 200; sent := Some user |};
                        log := (updated
                                ++ [Call mailService "send"
                                      [user; VStr "confirmation"; variables];
                                    ResJson user])%list |})
                end
            end
          else
            (Fulfilled tt,
             {| world := w1;
                res := {| statusCode := 200; sent := Some user |};
                log := (updated ++ [ResJson user])%list |})
      end
  end.
Proof.
  unfold updateUser, bind, call, await, eval, res_json, ret, init.
  rewrite !ToString_process_env. cbn.
  destruct (userModel_updateUser W um (req_user req) (req_body req) w)
    as [[user|e|] w1]; cbn; try reflexivity.
  destruct (get_prop user "email_confirmed") as [email_confirmed|e]; cbn; [|reflexivity].
  destruct (strict_eq_false email_confirmed); cbn; [|reflexivity].
  destruct (get_prop user "email_confirmation_token") as [token|e]; cbn; [|reflexivity].
  destruct (ToString N token) as [text|e]; cbn; [|reflexivity].
  change (mailService_send W ms user (VStr "confirmation") _ w1)
    with (mailService_send W ms user (VStr "confirmation")
            (confirmation_variables env text) w1).
  destruct (mailService_send W ms user (VStr "confirmation")
              (confirmation_variables env text) w1) as [mail w2].
  reflexivity.
Qed.

Lemma strict_eq_false_iff (v : value) : strict_eq_false v = true <-> v = VBool false.
Proof.
  split.
  - destruct v as [| |[|]| | |]; simpl; intros H; try discriminate; reflexivity.
  - intros ->; reflexivity.
Qed.

(** C8. When [updateUser] succeeds, the response is status 200 with the
    user [userModel.updateUser] resolved with as its body.  When that user's
    [email_confirmed] is [false], the handler has applied
    [mailService.send], once, on the world the model left, to the user,
    ['confirmation'] and two links that end in the user's confirmation
    token as a template prints it; for any other value of
    [email_confirmed], [true] among them, the mail collaborator is not
    called and the world is the one the model left. *)
Theorem updateUser_confirmation_mail (W : Type) (um : UserModel W) (ms : MailService W)
    (env : string -> option string) (N : Z -> string) (req : request) (w : W)
    (s : state W) :
  updateUser W um ms env N req (init w) = (Fulfilled tt, s) ->
  exists (user email_confirmed : value) (w1 : W),
    userModel_updateUser W um (req_user req) (req_body req) w = (Fulfilled user, w1)
    /\ get_prop user "email_confirmed" = Normal email_confirmed
    /\ res s = {| statusCode := 200; sent := Some user |}
    /\ (email_confirmed = VBool false ->
        exists (token : value) (text : string) (mail : promise) (w2 : W),
          get_prop user "email_confirmation_token" = Normal token
          /\ ToString N token = Normal text
          /\ mailService_send W ms user (VStr "confirmation")
               (confirmation_variables env text) w1 = (mail, w2)
          /\ world s = w2
          /\ filter (is_call_to mailService) (log s)
             = [Call mailService "send"
                  [user; VStr "confirmation"; confirmation_variables env text]])
    /\ (email_confirmed <> VBool false ->
        world s = w1 /\ filter (is_call_to mailService) (log s) = [])
    /\ (calls_to mailService (log s) = 1 <-> email_confirmed = VBool false)
    /\ (email_confirmed = VBool true -> calls_to mailService (log s) = 0).
Proof.
  rewrite updateUser_run. intros Hrun.
  destruct (userModel_updateUser W um (req_user req) (req_body req) w)
    as [[user|e|] w1]; try discriminate Hrun.
  destruct (get_prop user "email_confirmed") as [email_confirmed|e] eqn:Hconf;
    [|discriminate Hrun].
  exists user, email_confirmed, w1.
  destruct (strict_eq_false email_confirmed) eqn:Hfalse.
  - apply strict_eq_false_iff in Hfalse as ->.
    destruct (get_prop user "email_confirmation_token") as [token|e] eqn:Htoken;
      [|discriminate Hrun].
    destruct (ToString N token) as [text|e] eqn:Htext; [|discriminate Hrun].
    cbv zeta in Hrun.
    destruct (mailService_send W ms user (VStr "confirmation")
                (confirmation_variables env text) w1) as [mail w2] eqn:Hmail.
    injection Hrun as <-. cbn.
    split; [reflexivity|]. split; [assumption|]. split; [reflexivity|].
    split; [intros _; exists token, text, mail, w2; repeat split; assumption|].
    split; [intros H; contradiction|].
    split; [split; reflexivity | intros H; discriminate H].
  - assert (Hne : email_confirmed <> VBool false).
    { intros ->. discriminate Hfalse. }
    injection Hrun as <-. cbn.
    split; [reflexivity|]. split; [assumption|]. split; [reflexivity|].
    split; [intros H; contradiction|].
    split; [intros _; split; reflexivity|].
    split; [split; [intros H; discriminate H | intros H; contradiction]|].
    intros _; reflexivity.
Qed.

Lemma updateUser_confirmation_mail_witness :
  let s := snd (updateUser _ Fixtures.um Fixtures.ms_failing Fixtures.env Fixtures.decimal
                  Fixtures.req_update (init Fixtures.users)) in
  exists (user email_confirmed : value) (w1 : UserTable),
    userModel_updateUser _ Fixtures.um (req_user Fixtures.req_update)
      (req_body Fixtures.req_update) Fixtures.users = (Fulfilled user, w1)
    /\ get_prop user "email_confirmed" = Normal email_confirmed
    /\ res s = {| statusCode := 200; sent := Some user |}
    /\ (email_confirmed = VBool false ->
        exists (token : value) (text : string) (mail : promise) (w2 : UserTable),
          get_prop user "email_confirmation_token" = Normal token
          /\ ToString Fixtures.decimal token = Normal text
          /\ mailService_send _ Fixtures.ms_failing user (VStr "confirmation")
               (confirmation_variables Fixtures.env text) w1 = (mail, w2)
          /\ world s = w2
          /\ filter (is_call_to mailService) (log s)
             = [Call mailService "send"
                  [user; VStr "confirmation";
                   confirmation_variables Fixtures.env text]])
    /\ (email_confirmed <> VBool false ->
        world s = w1 /\ filter (is_call_to mailService) (log s) = [])
    /\ (calls_to mailService (log s) = 1 <-> email_confirmed = VBool false)
    /\ (email_confirmed = VBool true -> calls_to mailService (log s) = 0).
Proof.
  apply (updateUser_confirmation_mail _ Fixtures.um Fixtures.ms_failing Fixtures.env
           Fixtures.decimal Fixtures.req_update Fixtures.users).
  reflexivity.
Defined.

Example run_updateUser_confirmed :
  let s := snd (updateUser _ Fixtures.um_confirmed Fixtures.ms_failing Fixtures.env
                  Fixtures.decimal Fixtures.req_update (init Fixtures.users)) in
  res s = {| statusCode := 200; sent := Some Fixtures.tony_confirmed |}
  /\ calls_to mailService (log s) = 0.
Proof. split; reflexivity. Qed.

(* ===================================================================== *)
(** ** loginTwoFactor *)
(* ===================================================================== *)

Lemma loginTwoFactor_run (W : Type) (um : UserModel W) (req : request) (w : W) :
  loginTwoFactor W um req (init w) =
  match get_prop (req_body req) "two_factor_code" with
  | Throw e => (Rejected e, init w)
  | Normal two_factor_code =>
      match get_prop (req_body req) "device_name" with
      | Throw e => (Rejected e, init w)
      | Normal device_name =>
          match get_prop (req_headers req) "user-agent" with
          | Throw e => (Rejected e, init w)
          | Normal user_agent =>
              let (p, w1) :=
                userModel_loginTwoFactor W um (req_user req) two_factor_code device_name
                  user_agent w in
              let asked :=
                [Call userModel "loginTwoFactor"
                   [req_user req; two_factor_code; device_name; user_agent];
                 Await p] in
              match p with
              | Rejected e =>
                  (Rejected e, {| world := w1; res := fresh_res; log := asked |})
              | Pending => (Pending, {| world := w1; res := fresh_res; log := asked |})
              | Fulfilled tokens =>
                  (Fulfilled tt,
                   {| world := w1;
                      res := {| statusCode := 200; sent := Some tokens |};
                      log := (asked ++ [ResJson tokens])%list |})
              end
          end
      end
  end.
Proof.
  unfold loginTwoFactor. step_handler.
  destruct (get_prop (req_body req) "two_factor_code") as [code|e]; cbn; [|reflexivity].
  destruct (get_prop (req_body req) "device_name") as [device|e]; cbn; [|reflexivity].
  destruct (get_prop (req_headers req) "user-agent") as [agent|e]; cbn; [|reflexivity].
  destruct (userModel_loginTwoFactor W um (req_user req) code device agent w)
    as [[tokens|e|] w1]; reflexivity.
Qed.

(** C7. [loginTwoFactor] calls the model once, and no other collaborator:
    [userModel.loginTwoFactor] applied to [req.user], the [two_factor_code]
    and the [device_name] of the body and the [user-agent] header, in that
    order.  When the promise of that call is fulfilled the handler succeeds
    and the response is status 200 with the model's result as its body, so
    of the shape [{access_token, refresh_token, device_id}] when the model's
    result is; when it is rejected so is the handler, and nothing is sent. *)
Theorem loginTwoFactor_relays_model (W : Type) (um : UserModel W) (req : request)
    (w w1 : W) (two_factor_code device_name user_agent : value) (p : promise) :
  get_prop (req_body req) "two_factor_code" = Normal two_factor_code ->
  get_prop (req_body req) "device_name" = Normal device_name ->
  get_prop (req_headers req) "user-agent" = Normal user_agent ->
  userModel_loginTwoFactor W um (req_user req) two_factor_code device_name user_agent w
  = (p, w1) ->
  let (r, s) := loginTwoFactor W um req (init w) in
  filter is_call (log s)
  = [Call userModel "loginTwoFactor"
       [req_user req; two_factor_code; device_name; user_agent]]
  /\ world s = w1
  /\ match p with
     | Fulfilled tokens =>
         r = Fulfilled tt
         /\ res s = {| statusCode := 200; sent := Some tokens |}
         /\ (tokens_shaped tokens ->
             exists body, sent (res s) = Some body /\ tokens_shaped body)
     | Rejected e => r = Rejected e /\ sent (res s) = None
     | Pending => r = Pending /\ sent (res s) = None
     end.
Proof.
  intros Hcode Hdevice Hagent Hmodel.
  rewrite loginTwoFactor_run, Hcode, Hdevice, Hagent, Hmodel.
  destruct p as [tokens|e|]; cbn; repeat split; try reflexivity.
  intros Hshape. exists tokens. split; [reflexivity | exact Hshape].
Qed.

Lemma loginTwoFactor_relays_model_witness :
  let (r, s) := loginTwoFactor _ Fixtures.um Fixtures.req_two_factor
                  (init Fixtures.users) in
  filter is_call (log s)
  = [Call userModel "loginTwoFactor"
       [Fixtures.tony; VStr "123456"; VStr "laptop"; VStr "Mozilla/5.0"]]
  /\ world s = Fixtures.users
  /\ r = Fulfilled tt
  /\ res s = {| statusCode := 200; sent := Some Fixtures.tokens |}
  /\ (tokens_shaped Fixtures.tokens ->
      exists body, sent (res s) = Some body /\ tokens_shaped body).
Proof.
  apply (loginTwoFactor_relays_model _ Fixtures.um Fixtures.req_two_factor
           Fixtures.users Fixtures.users (VStr "123456") (VStr "laptop")
           (VStr "Mozilla/5.0") (Fulfilled Fixtures.tokens));
    reflexivity.
Defined.

(* ===================================================================== *)
(** ** loginGetSalt *)
(* ===================================================================== *)

Lemma loginGetSalt_run (W : Type) (um : UserModel W) (req : request) (w : W) :
  loginGetSalt W um req (init w) =
  let (p, w1) := userModel_loginGetSalt W um (req_body req) w in
  let asked := [Call userModel "loginGetSalt" [req_body req]; Await p] in
  match p with
  | Rejected e => (Rejected e, {| world := w1; res := fresh_res; log := asked |})
  | Pending => (Pending, {| world := w1; res := fresh_res; log := asked |})
  | Fulfilled user =>
      (Fulfilled tt,
       {| world := w1;
          res := {| statusCode := 200; sent := Some user |};
          log := (asked ++ [ResJson user])%list |})
  end.
Proof.
  unfold loginGetSalt. step_handler.
  destruct (userModel_loginGetSalt W um (req_body req) w) as [[user|e|] w1]; reflexivity.
Qed.

(** The controller adds nothing to what the model answers. *)
Lemma loginGetSalt_relays_model (W : Type) (um : UserModel W) (req : request)
    (w w1 : W) (user : value) :
  userModel_loginGetSalt W um (req_body req) w = (Fulfilled user, w1) ->
  let (r, s) := loginGetSalt W um req (init w) in
  r = Fulfilled tt /\ res s = {| statusCode := 200; sent := Some user |}.
Proof.
  intros Hmodel. rewrite loginGetSalt_run, Hmodel. split; reflexivity.
Qed.




Example run_loginGetSalt_known :
  sent (res (snd (loginGetSalt _ Fixtures.um Fixtures.req_salt_other_case
                    (init Fixtures.users))))
  = Some (VObj [("srp_salt",
                 VStr "e0812f8c57be08780bafcc7e2cbacd155b6f63962114c12cc12462a7aa669fdb")]).
Proof. reflexivity. Qed.

Example run_loginGetSalt_unknown :
  sent (res (snd (loginGetSalt _ Fixtures.um Fixtures.req_salt_unknown
                    (init Fixtures.users))))
  = Some (VObj [("srp_salt", VStr (Fixtures.decoy "nobody@gladysassistant.com"))]).
Proof. reflexivity. Qed.

(* ===================================================================== *)
(** ** The exported object: what holds of all seventeen handlers *)
(* ===================================================================== *)

(** Case analysis on everything a handler's run depends on: the property
    reads, the collaborators' answers, the strict comparison. *)
Ltac crack :=
  repeat (cbn;
    match goal with
    | |- context [match get_prop ?v ?k with _ => _ end] =>
        destruct (get_prop v k) as [?|?] eqn:?
    | |- context [match ToString ?n ?v with _ => _ end] =>
        destruct (ToString n v) as [?|?] eqn:?
    | |- context [match encodeURI ?n ?v with _ => _ end] =>
        destruct (encodeURI n v) as [?|?] eqn:?
    | |- context [if strict_eq_false ?c then _ else _] =>
        destruct (strict_eq_false c) eqn:?
    | |- context [let (_, _) := ?f in _] =>
        lazymatch f with
        | (let (_, _) := _ in _) => fail
        | _ => destruct f as [[?|?|] ?] eqn:?
        end
    end).

Ltac each_handler :=
  unfold UserController; repeat apply Forall_cons; try apply Forall_nil;
  intros req w; cbn [fst snd];
  unfold signup, updateUser, confirmEmail, configureTwoFactor, enableTwoFactor,
    loginGetSalt, loginGenerateEphemeralValuePair, loginDeriveSession, loginTwoFactor,
    getAccessToken, forgotPassword, resetPassword, getMySelf, getSetupState,
    getEmailResetPassword, getNewTwoFactorSecret, updateTwoFactor;
  unfold bind, call, await, eval, res_status, res_json, ret, record, init;
  rewrite ?ToString_process_env; crack.

(** Every handler sends a body exactly when it succeeds, as the last thing
    it does and only once; the status is 200, or 201 after a signup that
    succeeded.  A handler that is rejected or left pending has sent
    nothing. *)
Theorem controller_responds_iff_fulfilled (W : Type) (um : UserModel W)
    (umr : UserModelRest W) (ms : MailService W) (sm : SocketModel W)
    (env : string -> option string) (N : Z -> string) :
  Forall
    (fun entry : string * (routed -> async W unit) =>
       forall (req : routed) (w : W),
         let (r, s) := snd entry req (init w) in
         (r = Fulfilled tt <-> exists body, sent (res s) = Some body)
         /\ (forall body,
                sent (res s) = Some body ->
                last (log s) (ResStatus 0) = ResJson body
                /\ length (filter is_json (log s)) = 1)
         /\ (sent (res s) = None -> filter is_json (log s) = [])
         /\ statusCode (res s)
            = match r with
              | Fulfilled _ => if String.eqb (fst entry) "signup" then 201%Z else 200%Z
              | _ => 200%Z
              end)
    (UserController W um umr ms sm env N).
Proof.
  each_handler;
    (split; [split; [intros H; try discriminate H; eexists; reflexivity
                    | intros [body H]; try discriminate H; reflexivity]
            | split; [intros body H; try discriminate H; injection H as <-;
                      split; reflexivity
                     | split; [intros H; try discriminate H; reflexivity
                              | reflexivity]]]).
Qed.



(** A handler's run depends on the request only through the parts its
    source mentions: the handlers behind authentication that read
    [req.user] alone never look at what the client sent, and those that read
    only the body (or the route parameters) behave the same for every
    [req.user]. *)
Theorem controller_reads_only (W : Type) (um : UserModel W)
    (umr : UserModelRest W) (ms : MailService W) (sm : SocketModel W)
    (env : string -> option string) (N : Z -> string) :
  Forall
    (fun entry : string * (routed -> async W unit) =>
       forall (req req' : routed) (s : state W),
         (forall p, In p (reads (fst entry)) -> part_of p req = part_of p req') ->
         snd entry req s = snd entry req' s)
    (UserController W um umr ms sm env N).
Proof.
  unfold UserController; repeat apply Forall_cons; try apply Forall_nil;
    intros [[body user headers] params] [[body' user' headers'] params'] s Hsame;
    cbn [fst snd reads String.eqb Ascii.eqb Bool.eqb] in Hsame;
    cbn [fst snd request_of];
    try (assert (Hb := Hsame Body); cbn in Hb);
    try (assert (Hu := Hsame User); cbn in Hu);
    try (assert (Hh := Hsame Headers); cbn in Hh);
    try (assert (Hp := Hsame Params); cbn in Hp).
  all: unfold signup, updateUser, confirmEmail, configureTwoFactor, enableTwoFactor,
    loginGetSalt, loginGenerateEphemeralValuePair, loginDeriveSession, loginTwoFactor,
    getAccessToken, forgotPassword, resetPassword, getMySelf, getSetupState,
    getEmailResetPassword, getNewTwoFactorSecret, updateTwoFactor;
    cbn [req_body req_user req_headers req_params].
  all: repeat match goal with
         | H : ?a = ?b \/ _ -> _ |- _ =>
             first [ rewrite (H (or_introl eq_refl))
                   | rewrite (H (or_intror (or_introl eq_refl)))
                   | rewrite (H (or_intror (or_intror (or_introl eq_refl)))) ];
             clear H
         end.
  all: try reflexivity.
Qed.

(* ===================================================================== *)
(** ** Requests without a body, model answers without a user *)
(* ===================================================================== *)

(** The handlers that read a field of [req.body] reject a request whose body
    is missing with the [TypeError] of the read, before any collaborator is
    called: the world is untouched and nothing is sent. *)
Theorem missing_body_rejected_untouched (W : Type) (um : UserModel W)
    (umr : UserModelRest W) (sm : SocketModel W) (req : request) (w : W) :
  req_body req = VUndefined \/ req_body req = VNull ->
  confirmEmail W umr req (init w) = (Rejected TypeError, init w)
  /\ enableTwoFactor W umr req (init w) = (Rejected TypeError, init w)
  /\ updateTwoFactor W umr req (init w) = (Rejected TypeError, init w)
  /\ loginTwoFactor W um req (init w) = (Rejected TypeError, init w)
  /\ forgotPassword W um req (init w) = (Rejected TypeError, init w)
  /\ resetPassword W um sm req (init w) = (Rejected TypeError, init w).
Proof.
  unfold confirmEmail, enableTwoFactor, updateTwoFactor, loginTwoFactor, forgotPassword,
    resetPassword.
  intros [Hbody | Hbody]; rewrite Hbody; repeat split; reflexivity.
Qed.

Lemma missing_body_rejected_untouched_witness :
  confirmEmail _ Fixtures2.umr Fixtures2.req_no_body (init Fixtures.users)
  = (Rejected TypeError, init Fixtures.users)
  /\ enableTwoFactor _ Fixtures2.umr Fixtures2.req_no_body (init Fixtures.users)
     = (Rejected TypeError, init Fixtures.users)
  /\ updateTwoFactor _ Fixtures2.umr Fixtures2.req_no_body (init Fixtures.users)
     = (Rejected TypeError, init Fixtures.users)
  /\ loginTwoFactor _ Fixtures.um Fixtures2.req_no_body (init Fixtures.users)
     = (Rejected TypeError, init Fixtures.users)
  /\ forgotPassword _ Fixtures.um Fixtures2.req_no_body (init Fixtures.users)
     = (Rejected TypeError, init Fixtures.users)
  /\ resetPassword _ Fixtures.um Fixtures.sm_ok Fixtures2.req_no_body (init Fixtures.users)
     = (Rejected TypeError, init Fixtures.users).
Proof.
  apply (missing_body_rejected_untouched _ Fixtures.um Fixtures2.umr Fixtures.sm_ok
           Fixtures2.req_no_body Fixtures.users).
  left; reflexivity.
Defined.

(** When the rotation resolves with [null] or [undefined] instead of a
    user, [resetPassword] is rejected with the [TypeError] of reading
    [account_id]: the rotation has happened, the broadcast is never asked
    for and nothing is sent. *)
Theorem resetPassword_null_user (W : Type) (um : UserModel W) (sm : SocketModel W)
    (req : request) (w w1 : W) (token newUser : value) :
  get_prop (req_body req) "token" = Normal token ->
  userModel_resetPassword W um token (req_body req) w = (Fulfilled newUser, w1) ->
  newUser = VNull \/ newUser = VUndefined ->
  resetPassword W um sm req (init w)
  = (Rejected TypeError,
     {| world := w1;
        res := fresh_res;
        log := [Call userModel "resetPassword" [token; req_body req];
                Await (Fulfilled newUser)] |}).
Proof.
  intros Htoken Hrot Hnull.
  rewrite resetPassword_run, Htoken, Hrot.
  destruct Hnull as [-> | ->]; reflexivity.
Qed.

Lemma resetPassword_null_user_witness :
  resetPassword _ Fixtures2.um_null Fixtures.sm_ok Fixtures.req_reset (init Fixtures.users)
  = (Rejected TypeError,
     {| world := ("rotated", "salt") :: Fixtures.users;
        res := fresh_res;
        log := [Call userModel "resetPassword"
                  [VStr "reset-token"; req_body Fixtures.req_reset];
                Await (Fulfilled VNull)] |}).
Proof.
  apply (resetPassword_null_user _ Fixtures2.um_null Fixtures.sm_ok Fixtures.req_reset
           Fixtures.users (("rotated", "salt") :: Fixtures.users) (VStr "reset-token")
           VNull);
    [reflexivity | reflexivity | left; reflexivity].
Defined.

(** When the model has created the user but resolves with [null] or
    [undefined], [signup] is rejected with a [TypeError]: no mail is sent
    and no response, though the user exists. *)
Theorem signup_null_user (W : Type) (um : UserModel W) (ms : MailService W)
    (env : string -> option string) (N : Z -> string) (req : request) (w w1 : W)
    (user : value) :
  userModel_signup W um (req_body req) w = (Fulfilled user, w1) ->
  user = VNull \/ user = VUndefined ->
  signup W um ms env N req (init w)
  = (Rejected TypeError,
     {| world := w1;
        res := fresh_res;
        log := [Call userModel "signup" [req_body req]; Await (Fulfilled user)] |}).
Proof.
  intros Hmodel Hnull.
  rewrite signup_run, Hmodel.
  destruct Hnull as [-> | ->]; reflexivity.
Qed.

Lemma signup_null_user_witness :
  signup _ Fixtures2.um_null Fixtures.ms_failing Fixtures.env Fixtures.decimal
    Fixtures.req_signup (init Fixtures.users)
  = (Rejected TypeError,
     {| world := ("created", "salt") :: Fixtures.users;
        res := fresh_res;
        log := [Call userModel "signup" [req_body Fixtures.req_signup];
                Await (Fulfilled VNull)] |}).
Proof.
  apply (signup_null_user _ Fixtures2.um_null Fixtures.ms_failing Fixtures.env
           Fixtures.decimal Fixtures.req_signup Fixtures.users (("created", "salt") :: Fixtures.users)
           VNull);
    [reflexivity | left; reflexivity].
Defined.

(** The same for [updateUser]: an update the model answers with [null] or
    [undefined] is done, and the handler is rejected with a [TypeError]
    without mail or response. *)
Theorem updateUser_null_user (W : Type) (um : UserModel W) (ms : MailService W)
    (env : string -> option string) (N : Z -> string) (req : request) (w w1 : W)
    (user : value) :
  userModel_updateUser W um (req_user req) (req_body req) w = (Fulfilled user, w1) ->
  user = VNull \/ user = VUndefined ->
  updateUser W um ms env N req (init w)
  = (Rejected TypeError,
     {| world := w1;
        res := fresh_res;
        log := [Call userModel "updateUser" [req_user req; req_body req];
                Await (Fulfilled user)] |}).
Proof.
  intros Hmodel Hnull.
  rewrite updateUser_run, Hmodel.
  destruct Hnull as [-> | ->]; reflexivity.
Qed.

Lemma updateUser_null_user_witness :
  updateUser _ Fixtures2.um_null Fixtures.ms_failing Fixtures.env Fixtures.decimal
    Fixtures.req_update (init Fixtures.users)
  = (Rejected TypeError,
     {| world := ("updated", "salt") :: Fixtures.users;
        res := fresh_res;
        log := [Call userModel "updateUser"
                  [req_user Fixtures.req_update; req_body Fixtures.req_update];
                Await (Fulfilled VNull)] |}).
Proof.
  apply (updateUser_null_user _ Fixtures2.um_null Fixtures.ms_failing Fixtures.env
           Fixtures.decimal Fixtures.req_update Fixtures.users (("updated", "salt") :: Fixtures.users)
           VNull);
    [reflexivity | left; reflexivity].
Defined.



(* ===================================================================== *)
(** ** The confirmation links *)
(* ===================================================================== *)

Lemma encode_uri_string_length (s : string) :
  (String.length s <= String.length (encode_uri_string s))%nat.
Proof.
  induction s as [|c s IH]; cbn [encode_uri_string]; [apply le_n|].
  destruct (uri_unescaped c); cbn [percent_encode append String.length]; lia.
Qed.

(** [encodeURI] leaves a string as it is only if it has nothing to escape. *)
Lemma encode_uri_string_fixed (s : string) :
  encode_uri_string s = s -> all_chars uri_unescaped s = true.
Proof.
  induction s as [|c s IH]; cbn [encode_uri_string all_chars]; [reflexivity|].
  destruct (uri_unescaped c) eqn:Hc.
  - intros H. injection H as H. rewrite (IH H). reflexivity.
  - cbn [percent_encode append]. intros H. injection H as _ H.
    pose proof (encode_uri_string_length s) as Hlen.
    apply (f_equal String.length) in H. cbn [String.length] in H. lia.
Qed.

Lemma append_cancel (p a b : string) : (p ++ a = p ++ b)%string -> a = b.
Proof.
  induction p as [|c p IH]; cbn [append]; intros H; [exact H|].
  injection H as H. exact (IH H).
Qed.

Lemma hex_digit_unescaped (n : nat) : uri_unescaped (hex_digit n) = true.
Proof.
  do 16 (destruct n as [|n]; [reflexivity|]). reflexivity.
Qed.

(** What [encodeURI] returns is made of URI characters only. *)
Lemma encode_uri_string_chars (s : string) :
  all_chars uri_char (encode_uri_string s) = true.
Proof.
  induction s as [|c s IH]; cbn [encode_uri_string all_chars]; [reflexivity|].
  destruct (uri_unescaped c) eqn:Hc.
  - cbn [all_chars]. unfold uri_char at 1. rewrite Hc, IH. reflexivity.
  - cbn [percent_encode append all_chars]. unfold uri_char at 1 2 3.
    rewrite !hex_digit_unescaped, IH. reflexivity.
Qed.

(** With the two front-end URLs missing from the environment, a [signup]
    whose token can be URI-encoded still succeeds, and the links it hands to
    [mailService.send] start with the text "undefined". *)
Theorem signup_links_without_env (W : Type) (um : UserModel W) (ms : MailService W)
    (env : string -> option string) (N : Z -> string) (req : request) (w w1 w2 : W)
    (user token : value) (tail : string) (mail : promise) :
  env "GLADYS_GATEWAY_FRONTEND_URL" = None ->
  env "GLADYS_PLUS_FRONTEND_URL" = None ->
  userModel_signup W um (req_body req) w = (Fulfilled user, w1) ->
  get_prop user "email_confirmation_token" = Normal token ->
  encodeURI N token = Normal tail ->
  mailService_send W ms user (VStr "confirmation")
    (VObj [("confirmationUrl", VStr ("undefined/confirm-email/" ++ tail));
           ("confirmationUrlGladys4", VStr ("undefined/confirm-email/" ++ tail))]) w1
  = (mail, w2) ->
  let (r, s) := signup W um ms env N req (init w) in
  r = Fulfilled tt
  /\ world s = w2
  /\ filter (is_call_to mailService) (log s)
     = [Call mailService "send"
          [user; VStr "confirmation";
           VObj [("confirmationUrl", VStr ("undefined/confirm-email/" ++ tail));
                 ("confirmationUrlGladys4",
                  VStr ("undefined/confirm-email/" ++ tail))]]].
Proof.
  intros Hgateway Hplus Hmodel Htoken Htail Hmail.
  rewrite signup_run, Hmodel, Htoken, Htail. cbv zeta.
  unfold confirmation_variables, env_text. rewrite Hgateway, Hplus.
  cbn [append]. cbn [append] in Hmail. rewrite Hmail.
  repeat split; reflexivity.
Qed.

Lemma signup_links_without_env_witness :
  let (r, s) := signup _ Fixtures.um Fixtures.ms_failing Fixtures2.no_env Fixtures.decimal
                  Fixtures.req_signup (init Fixtures.users) in
  r = Fulfilled tt
  /\ world s = Fixtures.users
  /\ filter (is_call_to mailService) (log s)
     = [Call mailService "send"
          [Fixtures.tony; VStr "confirmation";
           VObj [("confirmationUrl", VStr ("undefined/confirm-email/" ++ "c0de%2042"));
                 ("confirmationUrlGladys4",
                  VStr ("undefined/confirm-email/" ++ "c0de%2042"))]]].
Proof.
  apply (signup_links_without_env _ Fixtures.um Fixtures.ms_failing Fixtures2.no_env
           Fixtures.decimal Fixtures.req_signup Fixtures.users Fixtures.users
           Fixtures.users Fixtures.tony (VStr "c0de 42") "c0de%2042"
           (Rejected Fixtures.smtp_down));
    reflexivity.
Defined.



(** For one and the same unconfirmed user whose confirmation token a
    template can print, the mail calls of [signup] and of [updateUser] are
    the same if and only if the printed token has no character [encodeURI]
    escapes: [signup] encodes the token (and sends nothing when it cannot),
    [updateUser] embeds it as it is. *)
Theorem signup_updateUser_same_links_iff (W : Type) (um : UserModel W)
    (ms : MailService W) (env : string -> option string) (N : Z -> string)
    (req req' : request) (w w1 w' w1' : W) (user token : value) (text : string) :
  userModel_signup W um (req_body req) w = (Fulfilled user, w1) ->
  userModel_updateUser W um (req_user req') (req_body req') w' = (Fulfilled user, w1') ->
  get_prop user "email_confirmed" = Normal (VBool false) ->
  get_prop user "email_confirmation_token" = Normal token ->
  ToString N token = Normal text ->
  filter (is_call_to mailService) (log (snd (signup W um ms env N req (init w))))
  = filter (is_call_to mailService) (log (snd (updateUser W um ms env N req' (init w'))))
  <-> all_chars uri_unescaped text = true.
Proof.
  intros Hsignup Hupdate Hconfirmed Htoken Htext.
  rewrite signup_run, updateUser_run, Hsignup, Hupdate, Hconfirmed, Htoken.
  unfold encodeURI. rewrite Htext. cbv zeta. cbn [strict_eq_false].
  destruct (mailService_send W ms user (VStr "confirmation")
              (confirmation_variables env text) w1') as [mail' w2'].
  destruct (utf8_valid text) eqn:Hvalid.
  - destruct (mailService_send W ms user (VStr "confirmation")
                (confirmation_variables env (encode_uri_string text)) w1) as [mail w2].
    cbn [snd log app filter is_call_to]. unfold confirmation_variables.
    split.
    + intros H. injection H as H _.
      apply append_cancel in H. apply (append_cancel "/confirm-email/") in H.
      exact (encode_uri_string_fixed _ H).
    + intros H. rewrite (encode_uri_string_unescaped _ H). reflexivity.
  - cbn [snd log app filter is_call_to]. split.
    + intros H. discriminate H.
    + intros H. rewrite (utf8_valid_unescaped _ H) in Hvalid. discriminate Hvalid.
Qed.

Lemma signup_updateUser_same_links_iff_witness :
  filter (is_call_to mailService)
    (log (snd (signup _ Fixtures.um Fixtures.ms_failing Fixtures.env Fixtures.decimal
                 Fixtures.req_signup (init Fixtures.users))))
  = filter (is_call_to mailService)
      (log (snd (updateUser _ Fixtures.um Fixtures.ms_failing Fixtures.env
                   Fixtures.decimal Fixtures.req_update (init Fixtures.users))))
  <-> all_chars uri_unescaped "c0de 42" = true.
Proof.
  apply (signup_updateUser_same_links_iff _ Fixtures.um Fixtures.ms_failing Fixtures.env
           Fixtures.decimal Fixtures.req_signup Fixtures.req_update Fixtures.users
           Fixtures.users Fixtures.users Fixtures.users Fixtures.tony (VStr "c0de 42")
           "c0de 42");
    reflexivity.
Defined.

(** In every run of [signup], a mail that is sent is sent to the user with
    the template ['confirmation'] and two links in which what follows
    [/confirm-email/] is made of URI characters only: the characters
    [encodeURI] keeps and its percent escapes. *)
Theorem signup_links_are_uris (W : Type) (um : UserModel W) (ms : MailService W)
    (env : string -> option string) (N : Z -> string) (req : request) (w : W)
    (r : settled unit) (s : state W) (method : string) (args : list value) :
  signup W um ms env N req (init w) = (r, s) ->
  In (Call mailService method args) (log s) ->
  exists (user : value) (tail : string),
    method = "send"
    /\ args = [user; VStr "confirmation"; confirmation_variables env tail]
    /\ all_chars uri_char tail = true.
Proof.
  rewrite signup_run. intros Hrun Hin.
  destruct (userModel_signup W um (req_body req) w) as [[user|e|] w1].
  2,3: injection Hrun as <- <-; cbn in Hin; intuition discriminate.
  destruct (get_prop user "email_confirmation_token") as [token|e].
  2: injection Hrun as <- <-; cbn in Hin; intuition discriminate.
  destruct (encodeURI N token) as [tail|e] eqn:Htail.
  2: injection Hrun as <- <-; cbn in Hin; intuition discriminate.
  cbv zeta in Hrun.
  destruct (mailService_send W ms user (VStr "confirmation")
              (confirmation_variables env tail) w1) as [mail w2].
  injection Hrun as <- <-. cbn in Hin.
  repeat (destruct Hin as [Hin|Hin]; [try discriminate Hin|]); try contradiction.
  injection Hin as <- <-.
  exists user, tail. repeat split.
  unfold encodeURI in Htail.
  destruct (ToString N token) as [text|e]; [|discriminate Htail].
  destruct (utf8_valid text); [|discriminate Htail].
  injection Htail as <-. apply encode_uri_string_chars.
Qed.

Lemma signup_links_are_uris_witness :
  exists (user : value) (tail : string),
    "send" = "send"
    /\ [Fixtures.tony; VStr "confirmation";
        confirmation_variables Fixtures.env "c0de%2042"]
       = [user; VStr "confirmation"; confirmation_variables Fixtures.env tail]
    /\ all_chars uri_char tail = true.
Proof.
  apply (signup_links_are_uris _ Fixtures.um Fixtures.ms_failing Fixtures.env
           Fixtures.decimal Fixtures.req_signup Fixtures.users (Fulfilled tt)
           (snd (signup _ Fixtures.um Fixtures.ms_failing Fixtures.env Fixtures.decimal
                   Fixtures.req_signup (init Fixtures.users))));
    [reflexivity | right; right; left; reflexivity].
Defined.

(* ===================================================================== *)
(** ** updateTwoFactor and getAccessToken *)
(* ===================================================================== *)

(** [updateTwoFactor] calls the model once, with [req.user], then the new
    secret, then the code, wherever the two stand in the body; the handler
    then does what the model's promise does. *)
Theorem updateTwoFactor_relays_model (W : Type) (umr : UserModelRest W) (req : request)
    (w w1 : W) (two_factor_secret two_factor_code : value) (p : promise) :
  get_prop (req_body req) "two_factor_secret" = Normal two_factor_secret ->
  get_prop (req_body req) "two_factor_code" = Normal two_factor_code ->
  userModel_updateTwoFactor W umr (req_user req) two_factor_secret two_factor_code w
  = (p, w1) ->
  let (r, s) := updateTwoFactor W umr req (init w) in
  filter is_call (log s)
  = [Call userModel "updateTwoFactor" [req_user req; two_factor_secret; two_factor_code]]
  /\ world s = w1
  /\ match p with
     | Fulfilled updated =>
         r = Fulfilled tt /\ res s = {| statusCode := 200; sent := Some updated |}
     | Rejected e => r = Rejected e /\ sent (res s) = None
     | Pending => r = Pending /\ sent (res s) = None
     end.
Proof.
  intros Hsecret Hcode Hmodel.
  unfold updateTwoFactor. step_handler. rewrite Hsecret. cbn. rewrite Hcode. cbn.
  rewrite Hmodel. destruct p as [updated|e|]; cbn; repeat split; reflexivity.
Qed.

Lemma updateTwoFactor_relays_model_witness :
  let (r, s) := updateTwoFactor _ Fixtures2.umr Fixtures2.req_update_two_factor
                  (init Fixtures.users) in
  filter is_call (log s)
  = [Call userModel "updateTwoFactor" [Fixtures.tony; VStr "F5NCGUKX"; VStr "123456"]]
  /\ world s = Fixtures.users
  /\ r = Fulfilled tt
  /\ res s = {| statusCode := 200;
                sent := Some (VObj [("user", Fixtures.tony);
                                    ("secret", VStr "F5NCGUKX");
                                    ("code", VStr "123456")]) |}.
Proof.
  apply (updateTwoFactor_relays_model _ Fixtures2.umr Fixtures2.req_update_two_factor
           Fixtures.users Fixtures.users (VStr "F5NCGUKX") (VStr "123456")
           (Fulfilled (VObj [("user", Fixtures.tony);
                             ("secret", VStr "F5NCGUKX");
                             ("code", VStr "123456")])));
    reflexivity.
Defined.

(** [getAccessToken] hands the model [req.user] and the [authorization]
    header as it is; when the header is absent the model is still called,
    with [undefined], and the handler does what the model's promise does. *)
Theorem getAccessToken_relays_model (W : Type) (umr : UserModelRest W) (req : request)
    (w w1 : W) (headers : list (string * value)) (p : promise) :
  req_headers req = VObj headers ->
  userModel_getAccessToken W umr (req_user req) (lookup "authorization" headers) w
  = (p, w1) ->
  let (r, s) := getAccessToken W umr req (init w) in
  filter is_call (log s)
  = [Call userModel "getAccessToken" [req_user req; lookup "authorization" headers]]
  /\ world s = w1
  /\ match p with
     | Fulfilled token =>
         r = Fulfilled tt /\ res s = {| statusCode := 200; sent := Some token |}
     | Rejected e => r = Rejected e /\ sent (res s) = None
     | Pending => r = Pending /\ sent (res s) = None
     end.
Proof.
  intros Hheaders Hmodel.
  unfold getAccessToken. step_handler. rewrite Hheaders. cbn.
  rewrite Hmodel. destruct p as [token|e|]; cbn; repeat split; reflexivity.
Qed.

Lemma getAccessToken_relays_model_witness :
  let (r, s) := getAccessToken _ Fixtures2.umr Fixtures2.req_no_body (init Fixtures.users) in
  filter is_call (log s) = [Call userModel "getAccessToken" [Fixtures.tony; VUndefined]]
  /\ world s = Fixtures.users
  /\ r = Fulfilled tt
  /\ res s = {| statusCode := 200;
                sent := Some (VObj [("user", Fixtures.tony);
                                    ("authorization", VUndefined)]) |}.
Proof.
  apply (getAccessToken_relays_model _ Fixtures2.umr Fixtures2.req_no_body
           Fixtures.users Fixtures.users []
           (Fulfilled (VObj [("user", Fixtures.tony); ("authorization", VUndefined)])));
    reflexivity.
Defined.

(* ===================================================================== *)
(** ** Auth.js: saving the login and connecting the socket *)
(* ===================================================================== *)

Ltac step_task :=
  unfold tbind, tcall, tawait, teval, tret, treturn, binit; cbn.

(** [saveLoginInformations] writes all four entries or none.  Given
    [undefined] or [null] it throws before the first write; given anything
    else it asks for the four writes, in the order refresh token, access
    token, RSA keys, ECDSA keys, a field the data lacks written as
    [undefined], and returns [undefined] whatever becomes of the writes. *)
Theorem saveLoginInformations_all_or_nothing (B Callback : Type)
    (keyValStore : KeyValStore B) (data : value) (b : B) :
  let (r, s) := saveLoginInformations B Callback keyValStore data (binit b) in
  ((data = VUndefined \/ data = VNull) /\ r = Rejected TypeError /\ s = binit b)
  \/ (data <> VUndefined /\ data <> VNull
      /\ r = Fulfilled VUndefined
      /\ blog s
         = [StoreSet "refresh_token" (read_or_undefined data "refreshToken");
            StoreSet "access_token" (read_or_undefined data "accessToken");
            StoreSet "rsa_keys" (read_or_undefined data "rsaKeys");
            StoreSet "ecdsa_keys" (read_or_undefined data "ecdsaKeys")]).
Proof.
  unfold saveLoginInformations, read_or_undefined.
  destruct data; step_task;
    repeat match goal with
      | |- context [let (_, _) := ?f in _] =>
          lazymatch f with
          | (let (_, _) := _ in _) => fail
          | _ => destruct f as [? ?]; cbn
          end
      end;
    first [ left; repeat split; auto; fail
          | right; repeat split; try discriminate; reflexivity ].
Qed.

(** The ways [connectSocket] can go. *)
Lemma connectSocket_run (B Callback : Type) (keyValStore : KeyValStore B)
    (client : Client B Callback) (callback : Callback) (b : B) :
  connectSocket B Callback keyValStore client callback (binit b) =
  let (p1, b1) := keyValStore_get B keyValStore "refresh_token" b in
  let read1 := [StoreGet "refresh_token"; AuthAwait p1] in
  match p1 with
  | Rejected e => (Rejected e, {| browser := b1; blog := read1 |})
  | Pending => (Pending, {| browser := b1; blog := read1 |})
  | Fulfilled refreshToken =>
      let (p2, b2) := keyValStore_get B keyValStore "rsa_keys" b1 in
      let read2 := (read1 ++ [StoreGet "rsa_keys"; AuthAwait p2])%list in
      match p2 with
      | Rejected e => (Rejected e, {| browser := b2; blog := read2 |})
      | Pending => (Pending, {| browser := b2; blog := read2 |})
      | Fulfilled rsaKeys =>
          let (p3, b3) := keyValStore_get B keyValStore "ecdsa_keys" b2 in
          let read3 := (read2 ++ [StoreGet "ecdsa_keys"; AuthAwait p3])%list in
          match p3 with
          | Rejected e => (Rejected e, {| browser := b3; blog := read3 |})
          | Pending => (Pending, {| browser := b3; blog := read3 |})
          | Fulfilled ecdsaKeys =>
              let (p, b4) :=
                client_userConnect B Callback client refreshToken rsaKeys ecdsaKeys
                  callback b3 in
              (p, {| browser := b4;
                     blog := (read3
                              ++ [UserConnect refreshToken rsaKeys ecdsaKeys callback])%list |})
          end
      end
  end.
Proof.
  unfold connectSocket. step_task.
  destruct (keyValStore_get B keyValStore "refresh_token" b) as [[x|e|] b1]; cbn;
    try reflexivity.
  destruct (keyValStore_get B keyValStore "rsa_keys" b1) as [[y|e|] b2]; cbn;
    try reflexivity.
  destruct (keyValStore_get B keyValStore "ecdsa_keys" b2) as [[z|e|] b3]; cbn;
    try reflexivity.
  destruct (client_userConnect B Callback client x y z callback b3) as [p b4].
  reflexivity.
Qed.

(** In every run of [connectSocket], a connection is opened only after the
    three reads, in the order refresh token, RSA keys, ECDSA keys, have each
    been awaited and fulfilled; it is opened with exactly the three values
    read and the caller's callback, it is the last thing done, and the
    function's promise is the one of the connection. *)
Theorem connectSocket_connects_with_what_it_read (B Callback : Type)
    (keyValStore : KeyValStore B) (client : Client B Callback) (callback cb : Callback)
    (b : B) (r : settled value) (s : bstate B Callback) (x y z : value) :
  connectSocket B Callback keyValStore client callback (binit b) = (r, s) ->
  In (UserConnect x y z cb) (blog s) ->
  blog s = [StoreGet "refresh_token"; AuthAwait (Fulfilled x);
            StoreGet "rsa_keys"; AuthAwait (Fulfilled y);
            StoreGet "ecdsa_keys"; AuthAwait (Fulfilled z);
            UserConnect x y z callback]
  /\ cb = callback
  /\ exists b3, client_userConnect B Callback client x y z callback b3 = (r, browser s).
Proof.
  rewrite connectSocket_run. intros Hrun Hin.
  destruct (keyValStore_get B keyValStore "refresh_token" b) as [[x'|e|] b1];
    cbv zeta in Hrun.
  2,3: injection Hrun as <- <-; cbn in Hin; intuition discriminate.
  destruct (keyValStore_get B keyValStore "rsa_keys" b1) as [[y'|e|] b2];
    cbv zeta in Hrun.
  2,3: injection Hrun as <- <-; cbn in Hin; intuition discriminate.
  destruct (keyValStore_get B keyValStore "ecdsa_keys" b2) as [[z'|e|] b3];
    cbv zeta in Hrun.
  2,3: injection Hrun as <- <-; cbn in Hin; intuition discriminate.
  destruct (client_userConnect B Callback client x' y' z' callback b3) as [p b4] eqn:Hp.
  injection Hrun as <- <-. cbn in Hin.
  repeat (destruct Hin as [Hin|Hin]; [try discriminate Hin|]); try contradiction.
  injection Hin as <- <- <- <-.
  repeat split. exists b3. exact Hp.
Qed.

Lemma connectSocket_connects_with_what_it_read_witness :
  let s := snd (connectSocket _ _ Fixtures2.store Fixtures2.gateway 7
                  (binit [("ecdsa_keys", VStr "e"); ("rsa_keys", VStr "r");
                          ("refresh_token", VStr "t")])) in
  blog s = [StoreGet "refresh_token"; AuthAwait (Fulfilled (VStr "t"));
            StoreGet "rsa_keys"; AuthAwait (Fulfilled (VStr "r"));
            StoreGet "ecdsa_keys"; AuthAwait (Fulfilled (VStr "e"));
            UserConnect (VStr "t") (VStr "r") (VStr "e") 7]
  /\ 7 = 7
  /\ exists b3,
       client_userConnect _ _ Fixtures2.gateway (VStr "t") (VStr "r") (VStr "e") 7 b3
       = (Fulfilled (VObj [("refresh_token", VStr "t");
                           ("rsa_keys", VStr "r");
                           ("ecdsa_keys", VStr "e")]),
          browser s).
Proof.
  apply (connectSocket_connects_with_what_it_read _ _ Fixtures2.store Fixtures2.gateway
           7 7 [("ecdsa_keys", VStr "e"); ("rsa_keys", VStr "r");
                ("refresh_token", VStr "t")]);
    [reflexivity | cbn; tauto].
Defined.

(** When the refresh token cannot be read, [connectSocket] is rejected with
    the error of that read: the keys are not read and no connection is
    opened. *)
Theorem connectSocket_unreadable_token (B Callback : Type) (keyValStore : KeyValStore B)
    (client : Client B Callback) (callback : Callback) (b b1 : B) (e : value) :
  keyValStore_get B keyValStore "refresh_token" b = (Rejected e, b1) ->
  connectSocket B Callback keyValStore client callback (binit b)
  = (Rejected e,
     {| browser := b1;
        blog := [StoreGet "refresh_token"; AuthAwait (Rejected e)] |}).
Proof.
  intros Hget. rewrite connectSocket_run, Hget. reflexivity.
Qed.

Lemma connectSocket_unreadable_token_witness :
  connectSocket _ _ Fixtures2.store_unreadable Fixtures2.gateway 7 (binit [])
  = (Rejected Fixtures.socket_down,
     {| browser := [];
        blog := [StoreGet "refresh_token"; AuthAwait (Rejected Fixtures.socket_down)] |}).
Proof.
  apply (connectSocket_unreadable_token _ _ Fixtures2.store_unreadable Fixtures2.gateway
           7 [] [] Fixtures.socket_down).
  reflexivity.
Defined.

(** Reading after writing in a lawful store. *)
Lemma get_after_set (B : Type) (store : KeyValStore B) (k k' : string) (v : value) (b : B) :
  lawful store ->
  keyValStore_get B store k' (snd (keyValStore_set B store k v b))
  = (if String.eqb k k' then Fulfilled v else fst (keyValStore_get B store k' b),
     snd (keyValStore_set B store k v b)).
Proof.
  intros [Hkeeps Hsame Hother].
  rewrite (surjective_pairing (keyValStore_get B store k' _)), Hkeeps.
  f_equal. destruct (String.eqb_spec k k') as [<- | Hne].
  - apply Hsame.
  - apply Hother. exact Hne.
Qed.

Lemma store_lawful : lawful Fixtures2.store.
Proof.
  split; cbn.
  - reflexivity.
  - intros k v b. rewrite String.eqb_refl. reflexivity.
  - intros k k' v b Hne.
    destruct (String.eqb_spec k' k) as [-> | _]; [contradiction | reflexivity].
Qed.

(** The browser [saveLoginInformations] leaves: the four writes, one on
    top of the other. *)
Lemma saveLoginInformations_browser (B Callback : Type) (keyValStore : KeyValStore B)
    (data : list (string * value)) (b : B) :
  browser (snd (saveLoginInformations B Callback keyValStore (VObj data) (binit b)))
  = snd (keyValStore_set B keyValStore "ecdsa_keys" (lookup "ecdsaKeys" data)
      (snd (keyValStore_set B keyValStore "rsa_keys" (lookup "rsaKeys" data)
         (snd (keyValStore_set B keyValStore "access_token" (lookup "accessToken" data)
            (snd (keyValStore_set B keyValStore "refresh_token"
                    (lookup "refreshToken" data) b))))))).
Proof.
  unfold saveLoginInformations. step_task.
  destruct (keyValStore_set B keyValStore "refresh_token" _ b) as [p1 b1]; cbn.
  destruct (keyValStore_set B keyValStore "access_token" _ b1) as [p2 b2]; cbn.
  destruct (keyValStore_set B keyValStore "rsa_keys" _ b2) as [p3 b3]; cbn.
  destruct (keyValStore_set B keyValStore "ecdsa_keys" _ b3) as [p4 b4]; cbn.
  reflexivity.
Qed.

(** With a store whose writes are in place when [set] returns,
    [connectSocket] after [saveLoginInformations] opens the connection with
    the refresh token, the RSA keys and the ECDSA keys of the data that was
    saved: the keys the one writes are the keys the other reads. *)
Theorem saveLoginInformations_then_connectSocket (B Callback : Type)
    (keyValStore : KeyValStore B) (client : Client B Callback) (callback : Callback)
    (data : list (string * value)) (b : B) :
  lawful keyValStore ->
  filter is_connect
    (blog (snd (and_then B Callback
                  (saveLoginInformations B Callback keyValStore (VObj data))
                  (connectSocket B Callback keyValStore client callback)
                  (binit b))))
  = [UserConnect (lookup "refreshToken" data) (lookup "rsaKeys" data)
       (lookup "ecdsaKeys" data) callback].
Proof.
  intros Hlawful. unfold and_then.
  pose proof (saveLoginInformations_browser B Callback keyValStore data b) as Hsaved.
  destruct (saveLoginInformations B Callback keyValStore (VObj data) (binit b))
    as [r s].
  cbn [snd] in Hsaved. rewrite Hsaved.
  match goal with
  | |- context [connectSocket _ _ _ _ _ {| browser := ?x; blog := [] |}] =>
      change {| browser := x; blog := [] |} with (@binit B Callback x)
  end.
  rewrite connectSocket_run.
  rewrite !(get_after_set B keyValStore) by exact Hlawful. cbn.
  destruct (client_userConnect B Callback client _ _ _ callback _) as [p b4].
  reflexivity.
Qed.

Lemma saveLoginInformations_then_connectSocket_witness :
  filter is_connect
    (blog (snd (and_then _ _
                  (saveLoginInformations _ nat Fixtures2.store Fixtures2.login_data)
                  (connectSocket _ _ Fixtures2.store Fixtures2.gateway 7)
                  (binit [("refresh_token", VStr "stale")]))))
  = [UserConnect (VStr "refresh-1") (VObj [("public_key", VStr "rsa-pub")])
       (VObj [("public_key", VStr "ecdsa-pub")]) 7].
Proof.
  apply (saveLoginInformations_then_connectSocket _ _ Fixtures2.store Fixtures2.gateway 7
           [("refreshToken", VStr "refresh-1");
            ("accessToken", VStr "access-1");
            ("rsaKeys", VObj [("public_key", VStr "rsa-pub")]);
            ("ecdsaKeys", VObj [("public_key", VStr "ecdsa-pub")])]
           [("refresh_token", VStr "stale")] store_lawful).
Defined.

(** With such a store, the two-factor access token that was saved is the
    one [getTwoFactorAccessToken] promises, whatever argument it is given,
    and saving the login in between does not touch it. *)
Theorem two_factor_access_token_round_trip (B Callback : Type)
    (keyValStore : KeyValStore B) (token ignored : value)
    (data : list (string * value)) (b : B) :
  lawful keyValStore ->
  fst (and_then B Callback
         (saveTwoFactorAccessToken B Callback keyValStore token)
         (and_then B Callback
            (saveLoginInformations B Callback keyValStore (VObj data))
            (getTwoFactorAccessToken B Callback keyValStore ignored))
         (binit b))
  = Fulfilled (Fulfilled token).
Proof.
  intros Hlawful. unfold and_then at 1.
  destruct (saveTwoFactorAccessToken B Callback keyValStore token (binit b))
    as [r1 s1] eqn:Hfirst.
  assert (Hs1 : browser s1
                = snd (keyValStore_set B keyValStore "two_factor_access_token" token b)).
  { revert Hfirst. unfold saveTwoFactorAccessToken. step_task.
    destruct (keyValStore_set B keyValStore "two_factor_access_token" token b)
      as [p b1].
    intros H. injection H as _ <-. reflexivity. }
  rewrite Hs1. unfold and_then.
  match goal with
  | |- context [saveLoginInformations _ _ _ _ {| browser := ?x; blog := [] |}] =>
      change {| browser := x; blog := [] |} with (@binit B Callback x)
  end.
  match goal with
  | |- context [saveLoginInformations B Callback keyValStore (VObj data) (binit ?x)] =>
      pose proof (saveLoginInformations_browser B Callback keyValStore data x) as Hsaved;
      destruct (saveLoginInformations B Callback keyValStore (VObj data) (binit x))
        as [r2 s2]
  end.
  cbn [snd] in Hsaved. rewrite Hsaved.
  unfold getTwoFactorAccessToken. step_task.
  rewrite !(get_after_set B keyValStore) by exact Hlawful. cbn.
  reflexivity.
Qed.

Lemma two_factor_access_token_round_trip_witness :
  fst (and_then _ nat
         (saveTwoFactorAccessToken _ nat Fixtures2.store (VStr "2fa-token"))
         (and_then _ nat
            (saveLoginInformations _ nat Fixtures2.store Fixtures2.login_data)
            (getTwoFactorAccessToken _ nat Fixtures2.store (VStr "anything")))
         (binit []))
  = Fulfilled (Fulfilled (VStr "2fa-token")).
Proof.
  apply (two_factor_access_token_round_trip _ nat Fixtures2.store (VStr "2fa-token")
           (VStr "anything")
           [("refreshToken", VStr "refresh-1");
            ("accessToken", VStr "access-1");
            ("rsaKeys", VObj [("public_key", VStr "rsa-pub")]);
            ("ecdsaKeys", VObj [("public_key", VStr "ecdsa-pub")])]
           [] store_lawful).
Defined.
